(** * A shallow embedding of @bhar2254/mysql

    The development follows the three source modules:

    - [JS]: the fragment of JavaScript's data model the package relies on
      (values, truthiness, [String(v)], objects as ordered property lists,
      [Array.prototype.join], template literals);
    - [Helper]: [mysql-helper.js], the query builders ([buildInsertQuery],
      [buildSelectQuery], [buildDeleteQuery], [escapeValue]) and the query
      executor ([createPool], [queryPromise], [executeQueryWithRetry]);
    - [SqlObject]: [mysql-object.js], the [SQLObject] class with its
      getters, setters and the [initialize], [create], [read] and [destroy]
      methods;
    - [Scripted]: a database server that answers from a script, on which
      the examples run.

    Modelling decisions that hold throughout:

    - numbers are the integers ([Z]); fractional numbers, [NaN] and the
      infinities are not represented, and [String(n)] is the decimal
      numeral of [n], as JavaScript prints an integer below 10^21;
    - strings are [string]s, compared character by character;
    - an object is the list of its own enumerable properties in the order
      [Object.keys] enumerates them; property reads fall back to the
      members every object literal inherits from [Object.prototype];
    - an object keeps the prototype it was made with: an assignment to
      the key [__proto__], and [String] of an object that has a
      [toString] of its own, are beyond the model, and [column_name] and
      [printable] name the keys and values within it;
    - [async] functions are state transformers over the process state
      ([World]); a rejected promise and a [throw] are both [Throw];
    - console output is not part of the state. *)

From Stdlib Require Import String Ascii List ZArith Lia Bool DecimalString.
Import ListNotations.

#[local] Open Scope list_scope.
#[local] Open Scope string_scope.

(* ===================================================================== *)
(** ** JavaScript values *)
(* ===================================================================== *)

Module JS.

(** [VNative] stands for a built-in function or object reached through the
    prototype chain; it carries the text [String] yields for it. *)
#[warnings="-register-all"]
Inductive value : Type :=
| VUndefined
| VNull
| VBool (b : bool)
| VNum (n : Z)
| VStr (s : string)
| VObj (o : list (string * value))
| VArr (l : list value)
| VNative (repr : string).

Definition obj : Type := list (string * value).

(** The double quote and the backslash as one-character strings. *)
Definition dq : string := String (ascii_of_nat 34) EmptyString.
Definition backslash : string := String (ascii_of_nat 92) EmptyString.

(** [ToBoolean]. *)
Definition truthy (v : value) : bool :=
  match v with
  | VUndefined | VNull => false
  | VBool b => b
  | VNum n => negb (n =? 0)%Z
  | VStr s => negb (s =? "")
  | VObj _ | VArr _ | VNative _ => true
  end.

(** [a || b] *)
Definition or_else (a b : value) : value := if truthy a then a else b.

(** A default in a parameter list or a destructuring pattern applies to
    [undefined] only. *)
Definition default_to (v d : value) : value :=
  match v with VUndefined => d | _ => v end.

Definition string_of_Z (n : Z) : string := NilZero.string_of_int (Z.to_int n).
Definition string_of_nat (n : nat) : string := string_of_Z (Z.of_nat n).

(** [Array.prototype.join] on strings. *)
Definition join (sep : string) (l : list string) : string := String.concat sep l.

(** [String(v)], as a template literal applies it.  This is the text
    JavaScript gives on the values [printable] describes (with the
    vocabulary of the properties): a number below 10^21 in magnitude, which
    prints in decimal digits, and an object without a [toString] of its
    own, which prints through [Object.prototype].  Beyond them [String]
    prints an exponent or throws, which this function does not. *)
Fixpoint to_string (v : value) : string :=
  match v with
  | VUndefined => "undefined"
  | VNull => "null"
  | VBool true => "true"
  | VBool false => "false"
  | VNum n => string_of_Z n
  | VStr s => s
  | VObj _ => "[object Object]"
  | VArr l =>
      join ","
        ((fix elems (l : list value) : list string :=
            match l with
            | [] => []
            | x :: rest =>
                match x with
                | VUndefined | VNull => ""
                | _ => to_string x
                end :: elems rest
            end) l)
  | VNative repr => repr
  end.

(** An element of an array as [join] prints it. *)
Definition join_elem (v : value) : string :=
  match v with
  | VUndefined | VNull => ""
  | _ => to_string v
  end.

(** [Array.prototype.join] on values. *)
Definition join_values (sep : string) (l : list value) : string :=
  join sep (map join_elem l).

(** [key.startsWith('_')] *)
Definition starts_with_underscore (k : string) : bool :=
  match k with
  | String c _ => Ascii.eqb c "_"%char
  | EmptyString => false
  end.

(** [s.replace(/c/g, by)] for a one-character pattern. *)
Fixpoint replace_char (c : ascii) (by_ : string) (s : string) : string :=
  match s with
  | EmptyString => EmptyString
  | String a rest =>
      (if Ascii.eqb a c then by_ else String a EmptyString)
        ++ replace_char c by_ rest
  end.

(** *** Objects *)

Fixpoint lookup (k : string) (o : obj) : option value :=
  match o with
  | [] => None
  | (k', v) :: rest => if k' =? k then Some v else lookup k rest
  end.

Definition has_own (k : string) (o : obj) : bool :=
  match lookup k o with Some _ => true | None => false end.

Definition native_function (name : string) : value :=
  VNative ("function " ++ name ++ "() { [native code] }").

(** The members of [Object.prototype]. *)
Definition object_prototype : obj :=
  [ ("constructor", native_function "Object");
    ("hasOwnProperty", native_function "hasOwnProperty");
    ("isPrototypeOf", native_function "isPrototypeOf");
    ("propertyIsEnumerable", native_function "propertyIsEnumerable");
    ("toLocaleString", native_function "toLocaleString");
    ("toString", native_function "toString");
    ("valueOf", native_function "valueOf");
    ("__defineGetter__", native_function "__defineGetter__");
    ("__defineSetter__", native_function "__defineSetter__");
    ("__lookupGetter__", native_function "__lookupGetter__");
    ("__lookupSetter__", native_function "__lookupSetter__");
    ("__proto__", VNative "[object Object]") ].

Definition inherited (k : string) : value :=
  match lookup k object_prototype with
  | Some v => v
  | None => VUndefined
  end.

(** An array index is the canonical decimal numeral of a number below
    [2^32 - 1]. *)
Definition array_index (k : string) : option N :=
  match NilZero.uint_of_string k with
  | Some u =>
      let n := N.of_uint u in
      if (NilZero.string_of_uint (N.to_uint n) =? k) && (n <? 4294967295)%N
      then Some n else None
  | None => None
  end.

Fixpoint chars (s : string) : list value :=
  match s with
  | EmptyString => []
  | String c rest => VStr (String c EmptyString) :: chars rest
  end.

Definition element (l : list value) (k : string) : option value :=
  match array_index k with
  | Some i => nth_error l (N.to_nat i)
  | None => None
  end.

(** [v[k]] for a [v] other than [undefined] and [null] (for which the read
    throws; the callers test for them first).  Arrays and strings have
    their elements and [length].  For a value that is not a plain object
    the members of [Object.prototype] stand for the end of its prototype
    chain; what [Array.prototype], [String.prototype] and the other
    wrappers add or override is not listed. *)
Definition get (v : value) (k : string) : value :=
  match v with
  | VUndefined | VNull => VUndefined
  | VObj o =>
      match lookup k o with Some x => x | None => inherited k end
  | VArr l =>
      if k =? "length" then VNum (Z.of_nat (length l))
      else match element l k with Some x => x | None => inherited k end
  | VStr s =>
      if k =? "length" then VNum (Z.of_nat (String.length s))
      else match element (chars s) k with Some x => x | None => inherited k end
  | VBool _ | VNum _ | VNative _ => inherited k
  end.

Fixpoint update (k : string) (v : value) (o : obj) : obj :=
  match o with
  | [] => []
  | (k', v') :: rest =>
      if k' =? k then (k', v) :: rest else (k', v') :: update k v rest
  end.

(** A new array-index key goes among the index keys, in ascending order. *)
Fixpoint insert_index (n : N) (k : string) (v : value) (o : obj) : obj :=
  match o with
  | [] => [(k, v)]
  | (k', v') :: rest =>
      match array_index k' with
      | Some n' =>
          if (n' <? n)%N then (k', v') :: insert_index n k v rest
          else (k, v) :: o
      | None => (k, v) :: o
      end
  end.

(** [o[k] = v]: an existing key keeps its place, a new index key is sorted
    in, any other new key goes last.  This is the assignment of JavaScript
    for every key but [__proto__], which JavaScript hands to the accessor
    of [Object.prototype] and does not store. *)
Definition set_prop (k : string) (v : value) (o : obj) : obj :=
  if has_own k o then update k v o
  else match array_index k with
       | Some n => insert_index n k v o
       | None => (o ++ [(k, v)])%list
       end.

Fixpoint indexed_from (i : nat) (l : list value) : obj :=
  match l with
  | [] => []
  | x :: rest => (string_of_nat i, x) :: indexed_from (S i) rest
  end.

(** The own enumerable string-keyed properties, as [{...v}] copies them. *)
Definition own_entries (v : value) : obj :=
  match v with
  | VObj o => o
  | VArr l => indexed_from 0 l
  | VStr s => indexed_from 0 (chars s)
  | _ => []
  end.

(** [Object.keys(v)] for a [v] other than [undefined] and [null]. *)
Definition keys (v : value) : list string := map fst (own_entries v).

(** [v === s] for a string literal [s]. *)
Definition is_string (v : value) (s : string) : bool :=
  match v with VStr t => t =? s | _ => false end.

(** *** Completions *)

Record exn : Type := mkExn { exn_name : string; exn_message : string }.

Definition Error (message : string) : exn := mkExn "Error" message.
Definition TypeError (message : string) : exn := mkExn "TypeError" message.
Definition ReferenceError (message : string) : exn :=
  mkExn "ReferenceError" message.

(** How a call ends: it returns, it throws, or the model ran out of the
    fuel that bounds a loop. *)
Inductive result (A : Type) : Type :=
| Ok (a : A)
| Throw (e : exn)
| OutOfFuel.

Arguments Ok {A} a.
Arguments Throw {A} e.
Arguments OutOfFuel {A}.

Definition rbind {A B} (r : result A) (k : A -> result B) : result B :=
  match r with
  | Ok a => k a
  | Throw e => Throw e
  | OutOfFuel => OutOfFuel
  end.

(** [l.map(f)] for a callback that may throw. *)
Fixpoint map_result {A B} (f : A -> result B) (l : list A) : result (list B) :=
  match l with
  | [] => Ok []
  | x :: rest =>
      rbind (f x) (fun y => rbind (map_result f rest) (fun ys => Ok (y :: ys)))
  end.

(** Reading a property of, or destructuring, [undefined] or [null] throws. *)
Definition require_object_coercible (v : value) (what : string) : result unit :=
  match v with
  | VUndefined | VNull =>
      Throw (TypeError ("Cannot read properties of " ++ to_string v
                          ++ " (reading '" ++ what ++ "')"))
  | _ => Ok tt
  end.

(** Code with effects on a state [S]. *)
Definition M (S A : Type) : Type := S -> result A * S.

Definition ret {S A} (a : A) : M S A := fun s => (Ok a, s).

Definition bind {S A B} (m : M S A) (k : A -> M S B) : M S B :=
  fun s =>
    match m s with
    | (Ok a, s') => k a s'
    | (Throw e, s') => (Throw e, s')
    | (OutOfFuel, s') => (OutOfFuel, s')
    end.

Definition throw {S A} (e : exn) : M S A := fun s => (Throw e, s).

(** [try { m } catch (e) { handler(e) }]: what [m] did to the state before
    it threw stays done. *)
Definition try_catch {S A} (m : M S A) (handler : exn -> M S A) : M S A :=
  fun s =>
    match m s with
    | (Throw e, s') => handler e s'
    | other => other
    end.

Definition lift_result {S A} (r : result A) : M S A := fun s => (r, s).

Definition get_state {S} : M S S := fun s => (Ok s, s).
Definition modify {S} (f : S -> S) : M S unit := fun s => (Ok tt, f s).

End JS.

Import JS.

Declare Scope js_scope.
Delimit Scope js_scope with js.
Notation "x <- c1 ;; c2" := (bind c1 (fun x => c2))
  (at level 61, c1 at next level, right associativity) : js_scope.
Notation "c1 ;; c2" := (bind c1 (fun _ => c2))
  (at level 61, right associativity) : js_scope.

(* ===================================================================== *)
(** ** mysql-helper.js *)
(* ===================================================================== *)

Module Helper.

(** *** Escaping *)

(** [escapeValue]: four global replacements, one after the other. *)
Definition escapeValue (value : value) : string :=
  replace_char (ascii_of_nat 0) (backslash ++ "0")
    (replace_char (ascii_of_nat 34) (backslash ++ dq)
       (replace_char "'"%char (backslash ++ "'")
          (replace_char (ascii_of_nat 92) (backslash ++ backslash)
             (to_string value)))).

(** *** INSERT *)

(** The callback of the [filter] in [buildInsertQuery]. *)
Definition insertable (data properties : obj) (key : string) : bool :=
  negb (starts_with_underscore key)
  && truthy (get (VObj properties) key)
  && truthy (get (VObj data) key).

Definition insert_elements (data properties : obj) : list string :=
  filter (insertable data properties) (keys (VObj data)).

(** [buildInsertQuery(table, data, properties, safe = true)]; [None] is
    [null]. *)
Definition buildInsertQuery (table : value) (data properties : obj)
    (safe : value) : option string :=
  let safe := default_to safe (VBool true) in
  let elements := insert_elements data properties in
  if (length elements =? 0)%nat then None
  else
    let columns := join "`, `" elements in
    let values :=
      join_values (dq ++ ", " ++ dq)
        (map (fun key =>
                if truthy safe then VStr (escapeValue (get (VObj data) key))
                else get (VObj data) key)
             elements) in
    Some ("INSERT INTO " ++ to_string table ++ " (`" ++ columns
            ++ "`) VALUES (" ++ dq ++ values ++ dq ++ ");").

(** *** DELETE *)

Definition buildDeleteQuery (table id : value) : string :=
  "DELETE FROM " ++ to_string table ++ " WHERE guid = "
    ++ dq ++ to_string id ++ dq ++ ";".

(** *** SELECT *)

Section Select.

(** The global object.  [buildSelectQuery] names [date_format] and
    [datetime_format]; the module declares neither, so both resolve
    there. *)
Variable globalThis : obj.

Definition resolve (name : string) : result value :=
  match lookup name globalThis with
  | Some v => Ok v
  | None => Throw (ReferenceError (name ++ " is not defined"))
  end.

Definition is_time_column (properties : obj) (key : string) : bool :=
  is_string (get (VObj properties) key) "date"
  || is_string (get (VObj properties) key) "datetime".

(** The callback of the [map] that builds [timeConversion]. *)
Definition time_projection (properties : obj) (key : string) : result string :=
  rbind (if is_string (get (VObj properties) key) "date"
         then resolve "date_format" else resolve "datetime_format")
        (fun format =>
           Ok (", DATE_FORMAT(" ++ key ++ ", '" ++ to_string format
                 ++ "') AS " ++ key)).

Definition where_statement (where_ all key id : value) : string :=
  if truthy where_
  then join " AND "
         (map (fun x => x ++ " " ++ to_string (get where_ x)) (keys where_))
  else if truthy all then ""
  else " WHERE " ++ to_string key ++ " = " ++ dq ++ to_string id ++ dq.

Definition clause (keyword : string) (v : value) : string :=
  if truthy v then keyword ++ to_string v else "".

Definition buildSelectQuery (table : value) (properties : obj)
    (id key all args : value) : result string :=
  rbind (require_object_coercible args "limit") (fun _ =>
  let limit := get args "limit" in
  let offset := get args "offset" in
  let orderBy := get args "orderBy" in
  let groupBy := get args "groupBy" in
  let where_ := get args "where" in
  rbind (map_result (time_projection properties)
           (filter (is_time_column properties) (keys (VObj properties))))
        (fun projections =>
  let timeConversion := join "" projections in
  let whereStmt := where_statement where_ all key id in
  Ok ("SELECT *" ++ timeConversion ++ " FROM " ++ to_string table
        ++ whereStmt
        ++ clause " ORDER BY " orderBy
        ++ clause " GROUP BY " groupBy
        ++ clause " OFFSET " offset
        ++ clause " LIMIT " limit
        ++ ";"))).

End Select.

(** *** escapeSQL *)

(** [escapeSQL]: a string has its backslashes, single quotes and double
    quotes escaped; any other value is returned as it is. *)
Definition escapeSQL (value : value) : JS.value :=
  match value with
  | VStr s =>
      VStr (replace_char (ascii_of_nat 34) (backslash ++ dq)
              (replace_char "'"%char (backslash ++ "'")
                 (replace_char (ascii_of_nat 92) (backslash ++ backslash) s)))
  | _ => value
  end.

(** *** UPDATE *)

(** [v !== s] for a string literal [s]. *)
Definition is_not_string (v : value) (s : string) : bool := negb (is_string v s).

(** [v !== undefined && v !== null] *)
Definition is_present (v : value) : bool :=
  match v with VUndefined | VNull => false | _ => true end.

(** The callback of the [filter] in [buildUpdateQuery]. *)
Definition updatable (datum : value) (properties : obj) (key : string) : bool :=
  negb (starts_with_underscore key)
  && is_present (get datum key)
  && is_not_string (get datum key) "undefined"
  && is_not_string (get datum key) "null"
  && existsb (String.eqb key) (keys (VObj properties)).

Definition update_elements (datum : value) (properties : obj) : list string :=
  filter (updatable datum properties) (keys datum).

(** The callback of the [map] in [buildUpdateQuery]. *)
Definition assignment (datum : value) (key : string) : string :=
  "`" ++ key ++ "` = " ++ dq ++ escapeValue (get datum key) ++ dq.

(** [buildUpdateQuery(table, datum, properties, id, key, all)];
    [Object.keys(datum)] throws for [undefined] and [null], and [None] is
    [null]. *)
Definition buildUpdateQuery (table datum : value) (properties : obj)
    (id key all : value) : result (option string) :=
  match datum with
  | VUndefined | VNull =>
      Throw (TypeError "Cannot convert undefined or null to object")
  | _ =>
      let setValues :=
        map (assignment datum) (update_elements datum properties) in
      if (length setValues =? 0)%nat then Ok None
      else
        let whereClause :=
          if negb (truthy all)
          then "WHERE " ++ to_string key ++ " = " ++ dq ++ to_string id ++ dq
          else "" in
        Ok (Some ("UPDATE " ++ to_string table ++ " SET "
                    ++ join ", " setValues ++ " " ++ whereClause ++ ";"))
  end.

(** *** Pagination *)

(** The double nearest to an integer, ties to the even significand: an
    integer below 2^53 in magnitude is a double, a larger one keeps its 53
    leading bits.  (Below 2^1024, where doubles end.) *)
Definition round_double (z : Z) : Z :=
  let a := Z.abs z in
  if (a <? 2 ^ 53)%Z then z
  else
    let e := (Z.log2 a - 52)%Z in
    let q := Z.shiftr a e in
    let r := (a - Z.shiftl q e)%Z in
    let half := Z.shiftl 1 (e - 1) in
    let q := if (half <? r)%Z || ((r =? half)%Z && Z.odd q)
             then (q + 1)%Z else q in
    (Z.sgn z * Z.shiftl q e)%Z.

(** [buildPaginationQuery(page = 1, pageSize = 10)], on integers that are
    doubles; [None] is an omitted argument.  The result is the object
    [{ limit: pageSize, offset }]; the subtraction and the product are
    those of doubles. *)
Definition buildPaginationQuery (page pageSize : option Z) : obj :=
  let page := match page with Some p => p | None => 1%Z end in
  let pageSize := match pageSize with Some n => n | None => 10%Z end in
  let offset := round_double (round_double (page - 1) * pageSize) in
  [("limit", VNum pageSize); ("offset", VNum offset)].

(** *** Enum declarations *)

(** A line terminator, which [.] in a regular expression does not match. *)
Definition is_line_terminator (c : ascii) : bool :=
  Ascii.eqb c (ascii_of_nat 10) || Ascii.eqb c (ascii_of_nat 13).

(** What [.*?] followed by a closing parenthesis takes from the text after
    an opening parenthesis: the characters up to the first closing
    parenthesis, if no line terminator comes before it. *)
Fixpoint until_close (s : string) : option string :=
  match s with
  | EmptyString => None
  | String c rest =>
      if Ascii.eqb c ")"%char then Some EmptyString
      else if is_line_terminator c then None
      else match until_close rest with
           | Some g => Some (String c g)
           | None => None
           end
  end.

(** [s.match(/\((.*?)\)/)[1]], or [None] when there is no match: the group
    of the leftmost opening parenthesis that has a match. *)
Fixpoint first_group (s : string) : option string :=
  match s with
  | EmptyString => None
  | String c rest =>
      if Ascii.eqb c "("%char then
        match until_close rest with
        | Some g => Some g
        | None => first_group rest
        end
      else first_group rest
  end.

(** [s.split(c)] for a one-character separator. *)
Fixpoint split_on (c : ascii) (s : string) : list string :=
  match s with
  | EmptyString => [EmptyString]
  | String a rest =>
      match split_on c rest with
      | [] => [String a EmptyString]
      | x :: xs =>
          if Ascii.eqb a c then EmptyString :: x :: xs
          else String a x :: xs
      end
  end.

(** What [getEnumFromDB] makes of the array [data] its query resolved to:
    [[]] unless there is a first row whose [COLUMN_TYPE] starts with
    [enum(], and then the comma-separated items between the parentheses
    with their single quotes removed.  [startsWith] is a method of strings
    only, and indexing the result of a [match] that failed throws. *)
Definition enum_of_rows (data : list value) : result (list string) :=
  match data with
  | [] => Ok []
  | first :: _ =>
      rbind (require_object_coercible first "COLUMN_TYPE") (fun _ =>
      match get first "COLUMN_TYPE" with
      | VStr COLUMN_TYPE =>
          if prefix "enum(" COLUMN_TYPE then
            match first_group COLUMN_TYPE with
            | Some group =>
                Ok (map (fun value => replace_char "'"%char "" value)
                      (split_on ","%char group))
            | None =>
                Throw (TypeError "Cannot read properties of null (reading '1')")
            end
          else Ok []
      | VUndefined | VNull =>
          Throw (TypeError ("Cannot read properties of "
                              ++ to_string (get first "COLUMN_TYPE")
                              ++ " (reading 'startsWith')"))
      | _ =>
          Throw (TypeError "data[0].COLUMN_TYPE.startsWith is not a function")
      end)
  end.

(** *** The executor *)

(** A pool as [mysql.createPool] configures it, with whether [end] has
    been called on it. *)
Record pool : Type := mkPool {
  host : value;
  user : value;
  password : value;
  database : value;
  waitForConnections : bool;
  connectionLimit : Z;
  queueLimit : Z;
  ended : bool
}.

Definition end_pool (p : pool) : pool :=
  mkPool (host p) (user p) (password p) (database p) (waitForConnections p)
    (connectionLimit p) (queueLimit p) true.

Fixpoint end_nth (i : nat) (ps : list pool) : list pool :=
  match ps, i with
  | [], _ => []
  | p :: rest, O => end_pool p :: rest
  | p :: rest, S j => p :: end_nth j rest
  end.

Section Executor.

(** [process.env] *)
Variable env : obj.

(** The database server, and [pool.query(str)] on a pool connected to it:
    the promise resolves to the pair [[rows, fields]] or rejects. *)
Variable DB : Type.
Variable driver_query : string -> DB -> (value * value + exn) * DB.

Definition env_var (name : string) : value :=
  match lookup name env with Some v => v | None => VUndefined end.

(** The process state: every pool created so far, and the server. *)
Record World : Type := mkWorld { pools : list pool; server : DB }.

Definition open_pools (w : World) : nat :=
  length (filter (fun p => negb (ended p)) (pools w)).

(** What [mysql.createPool] is given. *)
Definition new_pool : pool :=
  mkPool (env_var "DB_HOST") (env_var "DB_USER") (env_var "DB_PASS")
    (env_var "DB_DB") true 32 0 false.

(** [createPool()] returns the new pool, here its position in [pools]. *)
Definition createPool : M World nat :=
  fun w =>
    (Ok (length (pools w)), mkWorld (pools w ++ [new_pool])%list (server w)).

Definition pool_query (p : nat) (str : string) : M World (value * value) :=
  fun w =>
    match driver_query str (server w) with
    | (inl result, db) => (Ok result, mkWorld (pools w) db)
    | (inr error, db) => (Throw error, mkWorld (pools w) db)
    end.

Definition pool_end (p : nat) : M World unit :=
  modify (fun w => mkWorld (end_nth p (pools w)) (server w)).

Definition queryPromise (str : string) : M World value :=
  (pool <- createPool ;;
   result <- pool_query pool str ;;
   pool_end pool ;;
   let (rows, _) := result in
   ret rows)%js.

(** The [while] loop of [executeQueryWithRetry], entered with [attempt]
    failed attempts behind it.  Every iteration that does not leave the
    function adds one to [attempt], so [retries - attempt] units of [fuel]
    are enough. *)
Fixpoint retry_loop (fuel : nat) (query : string) (retries attempt : Z)
    : M World value :=
  if (attempt <? retries)%Z then
    match fuel with
    | O => lift_result OutOfFuel
    | S fuel' =>
        try_catch (queryPromise query)
          (fun error =>
             let attempt := (attempt + 1)%Z in
             let lastError := error in
             if (attempt >=? retries)%Z
             then throw (Error ("Query failed after " ++ string_of_Z retries
                                  ++ " attempts: " ++ exn_message lastError))
             else retry_loop fuel' query retries attempt)
    end
  else ret VUndefined.

(** [executeQueryWithRetry(query, retries = 3)]; [None] is an omitted
    [retries]. *)
Definition executeQueryWithRetry (query : string) (retries : option Z)
    : M World value :=
  let retries := match retries with Some r => r | None => 3%Z end in
  retry_loop (Z.to_nat retries) query retries 0.

(** [n] attempts in a row that all fail: the errors in order, and the
    state they leave. *)
Fixpoint failed_attempts (n : nat) (query : string) (w : World)
    : option (list exn * World) :=
  match n with
  | O => Some ([], w)
  | S m =>
      match queryPromise query w with
      | (Throw e, w') =>
          match failed_attempts m query w' with
          | Some (es, w'') => Some (e :: es, w'')
          | None => None
          end
      | _ => None
      end
  end.

(** *** Schema *)

Definition getPropertiesFromDB_query (table : value) : string :=
  "SELECT DATA_TYPE, COLUMN_NAME FROM INFORMATION_SCHEMA.COLUMNS WHERE TABLE_SCHEMA = '"
    ++ to_string (env_var "DB_DB") ++ "' AND TABLE_NAME = '"
    ++ to_string table ++ "'".

(** The [forEach] callback of [getPropertiesFromDB]. *)
Definition add_column (properties : obj) (column : value) : result obj :=
  rbind (require_object_coercible column "COLUMN_NAME") (fun _ =>
  let COLUMN_NAME := get column "COLUMN_NAME" in
  let DATA_TYPE := get column "DATA_TYPE" in
  Ok (set_prop (to_string COLUMN_NAME)
        (or_else DATA_TYPE (VStr "undefined")) properties)).

Fixpoint add_columns (properties : obj) (columns : list value) : result obj :=
  match columns with
  | [] => Ok properties
  | column :: rest =>
      rbind (add_column properties column) (fun p => add_columns p rest)
  end.

(** [response.forEach(...)]: only an array has [forEach]. *)
Definition collect_properties (response : value) : result obj :=
  match response with
  | VArr columns => add_columns [] columns
  | VUndefined | VNull =>
      Throw (TypeError ("Cannot read properties of " ++ to_string response
                          ++ " (reading 'forEach')"))
  | _ => Throw (TypeError "response.forEach is not a function")
  end.

Definition getPropertiesFromDB (table : value) : M World obj :=
  let query := getPropertiesFromDB_query table in
  try_catch
    (response <- queryPromise query ;;
     lift_result (collect_properties response))%js
    (fun error =>
       throw (Error ("Failed to load properties from table: "
                       ++ to_string table))).

(** *** Columns *)

Definition nl : string := String (ascii_of_nat 10) EmptyString.

(** The statement of [getColumnKeysFromDB] and [getEmptyObjectFromDB]. *)
Definition columns_query (table : value) : string :=
  nl ++ "        SELECT COLUMN_NAME"
    ++ nl ++ "        FROM INFORMATION_SCHEMA.COLUMNS"
    ++ nl ++ "        WHERE TABLE_SCHEMA = '" ++ to_string (env_var "DB_DB") ++ "'"
    ++ nl ++ "        AND TABLE_NAME = '" ++ to_string table ++ "'"
    ++ nl ++ "    ".

(** [data.map(x => x.COLUMN_NAME)]: only an array has [map]. *)
Definition column_names (data : value) : result (list value) :=
  match data with
  | VArr rows =>
      map_result
        (fun x =>
           rbind (require_object_coercible x "COLUMN_NAME") (fun _ =>
           Ok (get x "COLUMN_NAME")))
        rows
  | VUndefined | VNull =>
      Throw (TypeError ("Cannot read properties of " ++ to_string data
                          ++ " (reading 'map')"))
  | _ => Throw (TypeError "data.map is not a function")
  end.

Definition getColumnKeysFromDB (table : value) : M World (list value) :=
  (data <- queryPromise (columns_query table) ;;
   lift_result (column_names data))%js.

(** [getEmptyObjectFromDB]: every column name becomes a key with the value
    [null]. *)
Definition getEmptyObjectFromDB (table : value) : M World obj :=
  (data <- queryPromise (columns_query table) ;;
   columns <- lift_result (column_names data) ;;
   ret (fold_left
          (fun returnObj column => set_prop (to_string column) VNull returnObj)
          columns []))%js.

(** [allowedKeys.includes(each)] for a string [each]. *)
Definition includes_string (l : list value) (each : string) : bool :=
  existsb (fun v => is_string v each) l.

(** [filterObjectByTable(obj, table)]; [Object.keys(obj)] throws for
    [undefined] and [null], after the columns have been fetched. *)
Definition filterObjectByTable (obj table : value) : M World JS.obj :=
  (allowedKeys <- getColumnKeysFromDB table ;;
   match obj with
   | VUndefined | VNull =>
       throw (TypeError "Cannot convert undefined or null to object")
   | _ =>
       ret (fold_left
              (fun returnObj each =>
                 if includes_string allowedKeys each
                 then set_prop each (or_else (get obj each) (VStr "")) returnObj
                 else returnObj)
              (keys obj) [])
   end)%js.

End Executor.

Arguments pools {DB} w.
Arguments server {DB} w.
Arguments mkWorld {DB} pools server.

End Helper.

Import Helper.

(* ===================================================================== *)
(** ** mysql-object.js *)
(* ===================================================================== *)

Module SqlObject.

(** The fields behind the accessors of [SQLObject].  A field nothing has
    assigned yet is [VUndefined], [None] or [false]. *)
Record SQLObject : Type := mkSQLObject {
  _table : value;
  _last : option (value * value);      (* { query, response } *)
  _key : value;
  _datum : value;
  _data : option (list value);         (* only ever an array *)
  _id : value;
  all : value;
  _properties : option obj;
  _initialized : bool;
  _read : bool
}.

Definition blank : SQLObject :=
  mkSQLObject VUndefined None VUndefined VUndefined None VUndefined VUndefined
    None false false.

(** *** Setters *)

Definition set_table (v : value) (o : SQLObject) : SQLObject :=
  mkSQLObject v (_last o) (_key o) (_datum o) (_data o) (_id o) (all o)
    (_properties o) (_initialized o) (_read o).

Definition no_query : value := VStr "No query recorded!".
Definition no_response : value :=
  VArr [VObj [("guid", VStr "00000000-0000-0000-0000-000000000000");
              ("response", VStr "No data...")]].

Definition assign_last (l : value * value) (o : SQLObject) : SQLObject :=
  mkSQLObject (_table o) (Some l) (_key o) (_datum o) (_data o) (_id o)
    (all o) (_properties o) (_initialized o) (_read o).

(** [set last(value)], called with [{ query, response }]. *)
Definition set_last (query response : value) (o : SQLObject) : SQLObject :=
  assign_last (or_else query no_query, or_else response no_response) o.

Definition set_key (v : value) (o : SQLObject) : SQLObject :=
  mkSQLObject (_table o) (_last o) v (_datum o) (_data o) (_id o) (all o)
    (_properties o) (_initialized o) (_read o).

Definition set_datum (v : value) (o : SQLObject) : SQLObject :=
  mkSQLObject (_table o) (_last o) (_key o) v (_data o) (_id o) (all o)
    (_properties o) (_initialized o) (_read o).

Definition assign_data (l : list value) (o : SQLObject) : SQLObject :=
  mkSQLObject (_table o) (_last o) (_key o) (_datum o) (Some l) (_id o)
    (all o) (_properties o) (_initialized o) (_read o).

(** [set data(value)]; the [else] branch only warns on the console. *)
Definition set_data (v : value) (o : SQLObject) : SQLObject :=
  match v with
  | VArr l => set_datum (get v "0") (assign_data l o)
  | _ => o
  end.

Definition set_id (v : value) (o : SQLObject) : SQLObject :=
  mkSQLObject (_table o) (_last o) (_key o) (_datum o) (_data o) v (all o)
    (_properties o) (_initialized o) (_read o).

Definition set_all (v : value) (o : SQLObject) : SQLObject :=
  mkSQLObject (_table o) (_last o) (_key o) (_datum o) (_data o) (_id o) v
    (_properties o) (_initialized o) (_read o).

Definition set_properties (p : obj) (o : SQLObject) : SQLObject :=
  mkSQLObject (_table o) (_last o) (_key o) (_datum o) (_data o) (_id o)
    (all o) (Some p) (_initialized o) (_read o).

(** [set initialized(value)] stores [Boolean(value)]. *)
Definition set_initialized (v : value) (o : SQLObject) : SQLObject :=
  mkSQLObject (_table o) (_last o) (_key o) (_datum o) (_data o) (_id o)
    (all o) (_properties o) (truthy v) (_read o).

Definition assign_read (b : bool) (o : SQLObject) : SQLObject :=
  mkSQLObject (_table o) (_last o) (_key o) (_datum o) (_data o) (_id o)
    (all o) (_properties o) (_initialized o) b.

(** *** Getters *)

Definition get_table (o : SQLObject) : value := _table o.

Definition get_last (o : SQLObject) : value * value :=
  match _last o with
  | Some l => l
  | None => (no_query, no_response)
  end.

Definition get_key (o : SQLObject) : value := _key o.

(** [get data()]: [this._data || (this._datum ? [this._datum] : [])] *)
Definition get_data (o : SQLObject) : value :=
  match _data o with
  | Some l => VArr l
  | None => if truthy (_datum o) then VArr [_datum o] else VArr []
  end.

(** [get datum()]: [this._datum || this.data[0] || {}] *)
Definition get_datum (o : SQLObject) : value :=
  or_else (_datum o) (or_else (get (get_data o) "0") (VObj [])).

(** [get id()]: [this.data[0] ? this.data[0][this.key] || this._id : null] *)
Definition get_id (o : SQLObject) : value :=
  let first := get (get_data o) "0" in
  if truthy first
  then or_else (get first (to_string (get_key o))) (_id o)
  else VNull.

Definition get_properties (o : SQLObject) : obj :=
  match _properties o with
  | Some p => p
  | None => []
  end.

Definition get_initialized (o : SQLObject) : bool := _initialized o.

(** *** The constructor *)

Definition new_SQLObject (args : value) : result SQLObject :=
  let args := default_to args (VObj []) in
  rbind (require_object_coercible args "table") (fun _ =>
  let table := default_to (get args "table") VNull in
  let data := default_to (get args "data") (VArr [VObj []]) in
  let datum := default_to (get args "datum") (VObj []) in
  let key := default_to (get args "key") (VStr "guid") in
  let id := default_to (get args "id") VNull in
  let all := default_to (get args "all") (VBool false) in
  Ok (set_all all (set_id id (set_key key (set_datum datum
        (set_data data (set_table table blank))))))).

(** *** The methods *)

Section Methods.

Variable globalThis : obj.
Variable env : obj.
Variable DB : Type.
Variable driver_query : string -> DB -> (value * value + exn) * DB.

(** A method runs on the instance and the process state. *)
Definition St : Type := (SQLObject * World DB)%type.

Definition this : M St SQLObject := fun s => (Ok (fst s), s).

Definition assign (f : SQLObject -> SQLObject) : M St unit :=
  modify (fun s => (f (fst s), snd s)).

Definition await {A} (m : M (World DB) A) : M St A :=
  fun s => let (r, w) := m (snd s) in (r, (fst s, w)).

Definition initialize : M St value :=
  (o <- this ;;
   if get_initialized o then ret (VObj (get_properties o))
   else
     let table := get_table o in
     properties <- await (getPropertiesFromDB env DB driver_query table) ;;
     assign (set_properties properties) ;;
     ret (VObj properties))%js.

(** [if (!this._initialized) await this.initialize()], the first step of
    every method ([create] tests the getter [this.initialized], which reads
    the same field). *)
Definition ensure_initialized : M St value :=
  (o <- this ;;
   if negb (_initialized o) then initialize else ret VUndefined)%js.

Definition read (args : value) : M St value :=
  (let args := default_to args (VObj []) in
   ensure_initialized ;;
   o <- this ;;
   let table := get_table o in
   let properties := get_properties o in
   let id := get_id o in
   let key := get_key o in
   let all := default_to (all o) (VBool false) in
   query <- lift_result
              (buildSelectQuery globalThis table properties id key all args) ;;
   data <- await (queryPromise env DB driver_query query) ;;
   lift_result (require_object_coercible data "length") ;;
   if negb (truthy (get data "length")) then
     assign (set_last (VStr query) data) ;;
     ret (VNum 0)
   else
     assign (set_data data) ;;
     assign (set_datum (get data "0")) ;;
     assign (set_last (VStr query) data) ;;
     assign (assign_read true) ;;
     ret data)%js.

(** The loop of [create] that fills the object [create] from [_args]. *)
Definition filter_fields (properties : obj) (_args : value) : obj :=
  fold_left
    (fun create key =>
       if truthy _args && truthy (get _args key)
       then set_prop key (get _args key) create
       else create)
    (keys (VObj properties)) [].

Definition create (args : value) : M St value :=
  (ensure_initialized ;;
   o <- this ;;
   let properties := get_properties o in
   let table := get_table o in
   let _args := VObj (own_entries args) in
   lift_result (require_object_coercible args "safe") ;;
   let safe := default_to (get args "safe") (VBool true) in
   let create := filter_fields properties _args in
   assign (set_datum (VObj create)) ;;
   assign (set_data (VArr [VObj create])) ;;
   match buildInsertQuery table create properties safe with
   | None => ret (VNum 0)
   | Some query =>
       if negb (truthy (VStr query)) then ret (VNum 0)
       else
         try_catch
           (response <- await (queryPromise env DB driver_query query) ;;
            assign (set_key (VStr "id")) ;;
            lift_result (require_object_coercible response "insertId") ;;
            assign (set_id (get response "insertId")) ;;
            assign (set_last (VStr query) response) ;;
            read VUndefined ;;
            ret response)
           (fun error => ret VUndefined)
   end)%js.

Definition destroy : M St value :=
  (ensure_initialized ;;
   o <- this ;;
   let query := buildDeleteQuery (get_table o) (get_id o) in
   try_catch
     (response <- await (queryPromise env DB driver_query query) ;;
      assign (assign_last (VStr query, response)) ;;
      ret (VNum 1))
     (fun error => ret (VNum 0)))%js.

End Methods.

End SqlObject.

Import SqlObject.

(** *** [update] and [readOrCreate] *)

Module SqlObjectUpdate.

Section Methods.

Variable globalThis : obj.
Variable env : obj.
Variable DB : Type.
Variable driver_query : string -> DB -> (value * value + exn) * DB.

(** The loop of [update] that fills the object [update] from [datum]. *)
Definition truthy_fields (datum : value) : obj :=
  fold_left
    (fun update key =>
       if truthy (get datum key) then set_prop key (get datum key) update
       else update)
    (keys datum) [].

Definition update (datum : value) : M (St DB) value :=
  (ensure_initialized env DB driver_query ;;
   o <- this DB ;;
   (if negb (_read o) then read globalThis env DB driver_query VUndefined else ret VUndefined) ;;
   if negb (truthy datum) then ret (VNum 0)
   else
     let update := truthy_fields datum in
     o <- this DB ;;
     query <- lift_result
                (buildUpdateQuery (get_table o) datum (get_properties o)
                   (get_id o) (get_key o) (all o)) ;;
     match query with
     | None => ret (VNum 0)
     | Some query =>
         if negb (truthy (VStr query)) then ret (VNum 0)
         else
           try_catch
             (response <- await DB (queryPromise env DB driver_query query) ;;
              assign DB (assign_last (VStr query, response)) ;;
              assign DB (set_data (VArr [VObj update])) ;;
              ret response)
             (fun error => ret (VNum 0))
     end)%js.

Definition readOrCreate (datum : value) : M (St DB) value :=
  (response <- read globalThis env DB driver_query VUndefined ;;
   if negb (truthy response) then
     create globalThis env DB driver_query datum ;;
     read globalThis env DB driver_query VUndefined
   else ret response)%js.

End Methods.

End SqlObjectUpdate.

(* ===================================================================== *)
(** ** A scripted server *)
(* ===================================================================== *)

(** A server that answers the statements it receives from a script, one
    entry per statement, and records the statements.  It is what the
    examples run on. *)
Module Scripted.

Record DB : Type := mkDB {
  script : list (value * value + exn);
  received : list string
}.

Definition driver_query (str : string) (db : DB) : (value * value + exn) * DB :=
  match script db with
  | [] => (inr (Error "Connection lost"), mkDB [] (received db ++ [str])%list)
  | answer :: rest => (answer, mkDB rest (received db ++ [str])%list)
  end.

Definition start (answers : list (value * value + exn)) : World DB :=
  mkWorld [] (mkDB answers []).

Definition rows (l : list obj) : value * value + exn :=
  inl (VArr (map VObj l), VArr []).

Definition header (insertId : Z) : value * value + exn :=
  inl (VObj [("fieldCount", VNum 0); ("affectedRows", VNum 1);
             ("insertId", VNum insertId)], VUndefined).

Definition failure (message : string) : value * value + exn :=
  inr (Error message).

End Scripted.

(* ===================================================================== *)
(** ** Vocabulary of the properties *)
(* ===================================================================== *)

(** A key that [buildInsertQuery] keeps: not an internal marker, with a
    truthy entry in the property map and a truthy value in the row. *)
Definition kept (data properties : obj) (k : string) : Prop :=
  starts_with_underscore k = false
  /\ truthy (get (VObj properties) k) = true
  /\ truthy (get (VObj data) k) = true.

Definition backticked (k : string) : string := "`" ++ k ++ "`".
Definition quoted (s : string) : string := dq ++ s ++ dq.

Fixpoint count_char (c : ascii) (s : string) : nat :=
  match s with
  | EmptyString => 0
  | String a rest => (if Ascii.eqb a c then 1 else 0) + count_char c rest
  end.

(** The string literals of a statement whose values hold no double quote:
    one for every pair of double quotes. *)
Definition string_literals (statement : string) : nat :=
  Nat.div2 (count_char (ascii_of_nat 34) statement).

(** The specification's reading of the VALUES clause: with several
    columns, one string that holds all the values. *)
Definition single_value_string (statement : string) : Prop :=
  string_literals statement = 1.

Definition is_array (v : value) : bool :=
  match v with VArr _ => true | _ => false end.

(** *** An instance on the scripted server *)

(** [new SQLObject({ table: 'widgets', id: 'g1' })] *)
Definition widgets : SQLObject :=
  set_all (VBool false)
    (set_id (VStr "g1")
       (set_key (VStr "guid")
          (set_datum (VObj [])
             (set_data (VArr [VObj []]) (set_table (VStr "widgets") blank))))).

(** What the server answers when asked for the columns of [widgets]. *)
Definition widgets_columns : value * value + exn :=
  Scripted.rows
    [[("DATA_TYPE", VStr "varchar"); ("COLUMN_NAME", VStr "guid")];
     [("DATA_TYPE", VStr "varchar"); ("COLUMN_NAME", VStr "name")]].

(** *** Escaping, character by character *)

(** [expand f s] replaces every character [c] of [s] by [f c]. *)
Fixpoint expand (f : ascii -> string) (s : string) : string :=
  match s with
  | EmptyString => EmptyString
  | String a rest => f a ++ expand f rest
  end.

(** A backslash before a backslash, a single quote and a double quote, the
    two characters backslash and 0 for NUL, and any other character as it
    is. *)
Definition escape_char (c : ascii) : string :=
  if Ascii.eqb c (ascii_of_nat 92) then backslash ++ backslash
  else if Ascii.eqb c "'"%char then backslash ++ "'"
  else if Ascii.eqb c (ascii_of_nat 34) then backslash ++ dq
  else if Ascii.eqb c (ascii_of_nat 0) then backslash ++ "0"
  else String c EmptyString.

(** Undoing the four substitutions of [escapeValue].  A backslash must be
    followed by a backslash, a quote or 0; a quote or a NUL with no
    backslash before it, or a backslash at the end, has no original. *)
Fixpoint unescape (s : string) : option string :=
  match s with
  | EmptyString => Some EmptyString
  | String c rest =>
      if Ascii.eqb c (ascii_of_nat 92) then
        match rest with
        | EmptyString => None
        | String d rest' =>
            let original :=
              if Ascii.eqb d "0"%char then Some (ascii_of_nat 0)
              else if Ascii.eqb d (ascii_of_nat 92) || Ascii.eqb d "'"%char
                      || Ascii.eqb d (ascii_of_nat 34)
                   then Some d else None in
            match original, unescape rest' with
            | Some x, Some t => Some (String x t)
            | _, _ => None
            end
        end
      else if Ascii.eqb c "'"%char || Ascii.eqb c (ascii_of_nat 34)
              || Ascii.eqb c (ascii_of_nat 0)
           then None
      else match unescape rest with
           | Some t => Some (String c t)
           | None => None
           end
  end.

(** Whether [c] is a character of [s]. *)
Fixpoint occurs (c : ascii) (s : string) : bool :=
  match s with
  | EmptyString => false
  | String a rest => Ascii.eqb a c || occurs c rest
  end.

(** Whether every character of [s] satisfies [p]. *)
Fixpoint all_chars (p : ascii -> bool) (s : string) : bool :=
  match s with
  | EmptyString => true
  | String a rest => p a && all_chars p rest
  end.

(** *** Keys an UPDATE sets *)

(** A key that [buildUpdateQuery] keeps: not an internal marker, with a
    value other than [undefined], [null], ["undefined"] and ["null"], and
    among the keys of the property map. *)
Definition settable (datum : value) (properties : obj) (k : string) : Prop :=
  starts_with_underscore k = false
  /\ get datum k <> VUndefined /\ get datum k <> VNull
  /\ get datum k <> VStr "undefined" /\ get datum k <> VStr "null"
  /\ In k (keys (VObj properties)).

(** *** Enum declarations *)

(** A character an enum item may hold for [getEnumFromDB] to read it back:
    not a comma, a closing parenthesis, a single quote or a line
    terminator. *)
Definition plain_char (c : ascii) : bool :=
  negb (Ascii.eqb c ","%char || Ascii.eqb c ")"%char || Ascii.eqb c "'"%char
        || is_line_terminator c).

(** The [COLUMN_TYPE] of an enum column with the given items. *)
Definition enum_declaration (items : list string) : string :=
  "enum(" ++ join "," (map (fun item => "'" ++ item ++ "'") items) ++ ")".

(** *** Running [update] *)

(** What [update] does once the property map is loaded and the instance
    has been read. *)
Definition update_after_read (env : obj) (DB : Type)
    (driver_query : string -> DB -> (value * value + exn) * DB)
    (datum : value) : M (St DB) value :=
  (if negb (truthy datum) then ret (VNum 0)
   else
     let update := SqlObjectUpdate.truthy_fields datum in
     o <- this DB ;;
     query <- lift_result
                (buildUpdateQuery (get_table o) datum (get_properties o)
                   (get_id o) (get_key o) (all o)) ;;
     match query with
     | None => ret (VNum 0)
     | Some query =>
         if negb (truthy (VStr query)) then ret (VNum 0)
         else
           try_catch
             (response <- await DB (queryPromise env DB driver_query query) ;;
              assign DB (assign_last (VStr query, response)) ;;
              assign DB (set_data (VArr [VObj update])) ;;
              ret response)
             (fun error => ret (VNum 0))
     end)%js.

(** [update] has reached the point where it looks at its argument, with
    the instance [o2] and the process state [w2]: the property map was
    loaded, and an instance not read before was read. *)
Definition update_ready (globalThis env : obj) (DB : Type)
    (driver_query : string -> DB -> (value * value + exn) * DB)
    (o : SQLObject) (w : World DB) (o2 : SQLObject) (w2 : World DB) : Prop :=
  exists (v0 : value) (o1 : SQLObject) (w1 : World DB),
    ensure_initialized env DB driver_query (o, w) = (Ok v0, (o1, w1))
    /\ if _read o1 then (o2, w2) = (o1, w1)
       else exists v,
              read globalThis env DB driver_query VUndefined (o1, w1)
              = (Ok v, (o2, w2)).

(** *** The instance [widgets] after a read *)

Definition widget_row : obj := [("guid", VStr "g1"); ("name", VStr "a")].

(** The instance and the process after the property map of [widgets] was
    loaded and the instance was read, on a server that answers with the
    columns (once for each of the two steps), then with [widget_row], and
    has [answers] left. *)
Definition widgets_read (answers : list (value * value + exn))
    : St Scripted.DB :=
  snd (read [] [] Scripted.DB Scripted.driver_query VUndefined
         (snd (ensure_initialized [] Scripted.DB Scripted.driver_query
                 (widgets,
                  Scripted.start
                    (widgets_columns :: widgets_columns
                       :: Scripted.rows [widget_row] :: answers))))).

(** *** Values and names inside the reach of the model *)

(** The values on which [to_string] is the [String] of JavaScript: a number
    below 10^21 in magnitude, an object that has no [toString] of its own,
    an array of such values, and every other primitive. *)
Fixpoint printable (v : value) : bool :=
  match v with
  | VNum n => (Z.abs n <? 10 ^ 21)%Z
  | VObj o => negb (has_own "toString" o)
  | VArr l =>
      (fix all (l : list value) : bool :=
         match l with
         | [] => true
         | x :: rest => printable x && all rest
         end) l
  | _ => true
  end.

(** A column name as the server reports it: a string, and one that an
    assignment stores as a key, that is, any but [__proto__]. *)
Definition column_name (v : value) : bool :=
  match v with
  | VStr name => negb (name =? "__proto__")
  | _ => false
  end.

(** A row of [INFORMATION_SCHEMA.COLUMNS] with such a name. *)
Definition column_row (column : value) : bool :=
  column_name (get column "COLUMN_NAME").

(** An integer that is a double, with every integer between it and 0. *)
Definition safe_integer (n : Z) : bool := (Z.abs n <? 2 ^ 53)%Z.

(* ===================================================================== *)
(** ** Properties of the query builders *)
(* ===================================================================== *)

Lemma append_assoc (a b c : string) : (a ++ b) ++ c = a ++ b ++ c.
Proof.
  induction a as [|ch a IH]; simpl.
  - reflexivity.
  - now rewrite IH.
Qed.

Lemma filter_nil_iff {A} (f : A -> bool) (l : list A) :
  filter f l = [] <-> forall x, In x l -> f x = false.
Proof.
  induction l as [|a l IH]; simpl.
  - split; [intros _ x [] | reflexivity].
  - destruct (f a) eqn:Ha.
    + split; [discriminate |].
      intros H. specialize (H a (or_introl eq_refl)). congruence.
    + rewrite IH. split.
      * intros H x [<- | Hx]; auto.
      * intros H x Hx. apply H. now right.
Qed.

Lemma length_eqb_0 {A} (l : list A) : (length l =? 0)%nat = true <-> l = [].
Proof.
  destruct l; simpl; split; intros; try reflexivity; discriminate.
Qed.

Lemma insertable_kept data properties k :
  insertable data properties k = true <-> kept data properties k.
Proof.
  unfold insertable, kept.
  rewrite !andb_true_iff, negb_true_iff. tauto.
Qed.

(** C1, amended.  [buildInsertQuery] returns [null] exactly when the row has
    no key that at once does not start with an underscore, has a truthy
    entry [properties[key]] and has a truthy value [data[key]]. *)
Theorem buildInsertQuery_null_iff :
  forall (table : value) (data properties : obj) (safe : value),
    buildInsertQuery table data properties safe = None
    <-> ~ exists k, In k (keys (VObj data)) /\ kept data properties k.
Proof.
  intros table data properties safe. unfold buildInsertQuery.
  destruct (length (insert_elements data properties) =? 0)%nat eqn:E.
  - apply length_eqb_0 in E. unfold insert_elements in E.
    rewrite filter_nil_iff in E.
    split; [intros _ | reflexivity].
    intros (k & Hin & Hk). apply insertable_kept in Hk.
    rewrite (E k Hin) in Hk. discriminate.
  - split; [discriminate |].
    intros H. exfalso.
    assert (Hnil : insert_elements data properties = []).
    { unfold insert_elements. apply filter_nil_iff. intros k Hin.
      destruct (insertable data properties k) eqn:Hk; [| reflexivity].
      exfalso. apply H. exists k. split; [exact Hin |].
      now apply insertable_kept. }
    rewrite Hnil in E. discriminate.
Qed.

(** C1 as the specification words it fails on a key that is in the property
    map and truthy but starts with an underscore: the row [{_x: "1"}] under
    the schema [{_x: "int"}] gives [null]. *)
Lemma buildInsertQuery_null_iff_schema_known_counterexample :
  ~ (buildInsertQuery (VStr "t") [("_x", VStr "1")] [("_x", VStr "int")]
       (VBool true) = None
     <-> ~ exists k,
           In k (keys (VObj [("_x", VStr "1")]))
           /\ has_own k [("_x", VStr "int")] = true
           /\ truthy (get (VObj [("_x", VStr "1")]) k) = true).
Proof.
  intros [H _]. apply H; [reflexivity |].
  exists "_x". repeat split. now left.
Qed.

(** *** The shape of an INSERT *)

(** Joining with [r ++ sep ++ l] inside one pair [l], [r] is joining the
    wrapped items with [sep]. *)
Lemma join_wrap (l r sep x : string) (xs : list string) :
  l ++ join (r ++ sep ++ l) (x :: xs) ++ r
  = join sep (map (fun k => l ++ k ++ r) (x :: xs)).
Proof.
  revert x. induction xs as [|y ys IH]; intros x.
  - reflexivity.
  - change (join (r ++ sep ++ l) (x :: y :: ys))
      with (x ++ (r ++ sep ++ l) ++ join (r ++ sep ++ l) (y :: ys)).
    change (join sep (map (fun k => l ++ k ++ r) (x :: y :: ys)))
      with ((l ++ x ++ r) ++ sep
              ++ join sep (map (fun k => l ++ k ++ r) (y :: ys))).
    rewrite <- IH.
    repeat rewrite append_assoc. reflexivity.
Qed.

Lemma join_values_strings (sep : string) (f : string -> string)
    (l : list string) :
  join_values sep (map (fun k => VStr (f k)) l) = join sep (map f l).
Proof.
  unfold join_values. rewrite map_map. reflexivity.
Qed.

(** C2, amended.  With [safe] true and at least one kept column the
    statement is [INSERT INTO <table> (`c1`, `c2`) VALUES ("v1", "v2");]:
    the kept keys in the row's order, each in backticks, and one escaped,
    double-quoted value for each of them. *)
Theorem buildInsertQuery_one_value_per_column :
  forall (table : value) (data properties : obj) (k : string)
         (ks : list string),
    insert_elements data properties = k :: ks ->
    buildInsertQuery table data properties (VBool true)
    = Some ("INSERT INTO " ++ to_string table
              ++ " (" ++ join ", " (map backticked (k :: ks))
              ++ ") VALUES ("
              ++ join ", "
                   (map (fun key => quoted (escapeValue (get (VObj data) key)))
                      (k :: ks))
              ++ ");").
Proof.
  intros table data properties k ks E.
  unfold buildInsertQuery. rewrite E.
  cbn [length Nat.eqb default_to truthy].
  rewrite (join_values_strings _ (fun key => escapeValue (get (VObj data) key))).
  f_equal. f_equal. f_equal.
  pose proof (join_wrap "`" "`" ", " k ks) as Hc.
  pose proof (join_wrap dq dq ", "
                (escapeValue (get (VObj data) k))
                (map (fun key => escapeValue (get (VObj data) key)) ks)) as Hv.
  change (map (fun key => escapeValue (get (VObj data) key)) (k :: ks))
    with (escapeValue (get (VObj data) k)
            :: map (fun key => escapeValue (get (VObj data) key)) ks).
  unfold backticked, quoted.
  rewrite <- Hc.
  replace (map (fun key => dq ++ escapeValue (get (VObj data) key) ++ dq)
             (k :: ks))
    with (map (fun s => dq ++ s ++ dq)
            (escapeValue (get (VObj data) k)
               :: map (fun key => escapeValue (get (VObj data) key) ) ks))
    by (simpl; now rewrite map_map).
  rewrite <- Hv.
  change ("`" ++ ", " ++ "`") with "`, `".
  repeat rewrite append_assoc. reflexivity.
Qed.

Lemma buildInsertQuery_one_value_per_column_witness :
  insert_elements [("name", VStr "John O'Doe"); ("age", VNum 30)]
    [("name", VStr "varchar"); ("age", VStr "int")] = ["name"; "age"]
  /\ buildInsertQuery (VStr "users")
       [("name", VStr "John O'Doe"); ("age", VNum 30)]
       [("name", VStr "varchar"); ("age", VStr "int")] (VBool true)
     = Some ("INSERT INTO users (`name`, `age`) VALUES ("
               ++ dq ++ "John O" ++ backslash ++ "'Doe" ++ dq ++ ", "
               ++ dq ++ "30" ++ dq ++ ");").
Proof.
  split; [reflexivity |].
  exact (buildInsertQuery_one_value_per_column (VStr "users")
           [("name", VStr "John O'Doe"); ("age", VNum 30)]
           [("name", VStr "varchar"); ("age", VStr "int")]
           "name" ["age"] eq_refl).
Defined.

(** C2 as the specification words it fails on the row [{a: "1", b: "2"}]:
    the statement is [INSERT INTO t (`a`, `b`) VALUES ("1", "2");], with
    two string literals, one for each column. *)
Lemma buildInsertQuery_single_value_string_counterexample :
  exists statement,
    buildInsertQuery (VStr "t") [("a", VStr "1"); ("b", VStr "2")]
      [("a", VStr "int"); ("b", VStr "int")] (VBool true) = Some statement
    /\ statement = "INSERT INTO t (`a`, `b`) VALUES ("
                     ++ dq ++ "1" ++ dq ++ ", " ++ dq ++ "2" ++ dq ++ ");"
    /\ string_literals statement = 2
    /\ ~ single_value_string statement.
Proof.
  eexists. split; [reflexivity |]. split; [reflexivity |].
  split; [reflexivity |]. unfold single_value_string. simpl. discriminate.
Qed.

(** *** SELECT *)

Lemma map_result_head_throws {A B} (f : A -> result B) (x : A) (xs : list A)
    (e : exn) :
  f x = Throw e -> map_result f (x :: xs) = Throw e.
Proof.
  intros H. simpl. now rewrite H.
Qed.

Lemma time_projection_throws (globalThis properties : obj) (key : string) :
  lookup "date_format" globalThis = None ->
  lookup "datetime_format" globalThis = None ->
  exists name,
    (name = "date_format" \/ name = "datetime_format")
    /\ time_projection globalThis properties key
       = Throw (ReferenceError (name ++ " is not defined")).
Proof.
  intros Hd Hdt. unfold time_projection, resolve.
  destruct (is_string (get (VObj properties) key) "date").
  - exists "date_format". rewrite Hd. split; [now left | reflexivity].
  - exists "datetime_format". rewrite Hdt. split; [now right | reflexivity].
Qed.

(** C3 fails on the code.  Where nothing defines the globals [date_format]
    and [datetime_format] (the package never does) and the property map
    gives some column the type ["date"] or ["datetime"], [buildSelectQuery]
    throws a [ReferenceError] instead of returning text. *)
Theorem buildSelectQuery_time_column_throws :
  forall (globalThis : obj) (table : value) (properties : obj)
         (id key all : value) (args : obj) (column : string),
    lookup "date_format" globalThis = None ->
    lookup "datetime_format" globalThis = None ->
    In column (keys (VObj properties)) ->
    is_time_column properties column = true ->
    exists name,
      (name = "date_format" \/ name = "datetime_format")
      /\ buildSelectQuery globalThis table properties id key all (VObj args)
         = Throw (ReferenceError (name ++ " is not defined")).
Proof.
  intros globalThis table properties id key all args column Hd Hdt Hin Ht.
  unfold buildSelectQuery.
  cbn [require_object_coercible rbind].
  destruct (filter (is_time_column properties) (keys (VObj properties)))
    as [|c cs] eqn:E.
  - rewrite filter_nil_iff in E. rewrite (E column Hin) in Ht. discriminate.
  - destruct (time_projection_throws globalThis properties c Hd Hdt)
      as (name & Hname & Hthrow).
    exists name. split; [exact Hname |].
    rewrite (map_result_head_throws _ c cs _ Hthrow). reflexivity.
Qed.

Lemma buildSelectQuery_time_column_throws_witness :
  buildSelectQuery [] (VStr "events") [("id", VStr "int"); ("created", VStr "date")]
    (VNum 1) (VStr "id") (VBool false) (VObj [])
  = Throw (ReferenceError "date_format is not defined").
Proof.
  destruct (buildSelectQuery_time_column_throws [] (VStr "events")
              [("id", VStr "int"); ("created", VStr "date")]
              (VNum 1) (VStr "id") (VBool false) [] "created"
              eq_refl eq_refl (or_intror (or_introl eq_refl)) eq_refl)
    as (name & _ & H).
  reflexivity.
Defined.

(** Without a date or datetime column [buildSelectQuery] returns text for
    every options object. *)
Lemma buildSelectQuery_returns_text :
  forall (globalThis : obj) (table : value) (properties : obj)
         (id key all : value) (args : obj),
    (forall column, In column (keys (VObj properties)) ->
                    is_time_column properties column = false) ->
    exists text,
      buildSelectQuery globalThis table properties id key all (VObj args)
      = Ok text.
Proof.
  intros globalThis table properties id key all args H.
  unfold buildSelectQuery.
  cbn [require_object_coercible rbind].
  apply filter_nil_iff in H. rewrite H.
  cbn [map_result rbind]. eexists. reflexivity.
Qed.

(** With both formats defined [buildSelectQuery] returns text for every
    property map and options object. *)
Lemma buildSelectQuery_returns_text_with_formats :
  forall (globalThis : obj) (table : value) (properties : obj)
         (id key all : value) (args : obj) (date_format datetime_format : value),
    lookup "date_format" globalThis = Some date_format ->
    lookup "datetime_format" globalThis = Some datetime_format ->
    exists text,
      buildSelectQuery globalThis table properties id key all (VObj args)
      = Ok text.
Proof.
  intros globalThis table properties id key all args f1 f2 H1 H2.
  unfold buildSelectQuery.
  cbn [require_object_coercible rbind].
  assert (Hmap : forall ks, exists projections,
             map_result (time_projection globalThis properties) ks
             = Ok projections).
  { induction ks as [|k ks [ps IH]].
    - now exists [].
    - cbn [map_result]. unfold time_projection at 1, resolve.
      rewrite H1, H2, IH.
      destruct (is_string (get (VObj properties) k) "date");
        eexists; reflexivity. }
  destruct (Hmap (filter (is_time_column properties) (keys (VObj properties))))
    as [ps ->].
  cbn [rbind]. eexists. reflexivity.
Qed.

(** *** DELETE *)

Section Destroy.

Variable globalThis : obj.
Variable env : obj.
Variable DB : Type.
Variable driver_query : string -> DB -> (value * value + exn) * DB.

(** C4.  [buildDeleteQuery] is [DELETE FROM <table> WHERE guid = "<id>";]
    and has no key column among its arguments; and the statement [destroy]
    sends for an instance filters on [guid] whatever its key. *)
Theorem buildDeleteQuery_filters_on_guid :
  (forall table id : value,
      buildDeleteQuery table id
      = "DELETE FROM " ++ to_string table ++ " WHERE guid = "
          ++ dq ++ to_string id ++ dq ++ ";")
  /\ (forall (key : value) (o : SQLObject) (w : World DB),
        let o' := set_initialized (VBool true) (set_key key o) in
        let statement :=
          "DELETE FROM " ++ to_string (get_table o) ++ " WHERE guid = "
            ++ dq ++ to_string (get_id o') ++ dq ++ ";" in
        destroy env DB driver_query (o', w)
        = match queryPromise env DB driver_query statement w with
          | (Ok response, w') =>
              (Ok (VNum 1), (assign_last (VStr statement, response) o', w'))
          | (Throw _, w') => (Ok (VNum 0), (o', w'))
          | (OutOfFuel, w') => (OutOfFuel, (o', w'))
          end).
Proof.
  split; [reflexivity |].
  intros key o w o' statement.
  unfold destroy, ensure_initialized, bind, try_catch, this, await, assign,
    modify, ret.
  cbn [fst snd].
  change (_initialized o') with true. cbn [fst snd negb].
  change (buildDeleteQuery (get_table o') (get_id o')) with statement.
  destruct (queryPromise env DB driver_query statement w) as [[response| e |] w'];
    reflexivity.
Qed.

End Destroy.

(* ===================================================================== *)
(** ** Properties of the executor *)
(* ===================================================================== *)

Lemma end_nth_last (ps : list pool) (p : pool) :
  end_nth (length ps) (ps ++ [p])%list = (ps ++ [end_pool p])%list.
Proof.
  induction ps as [|q ps IH]; simpl.
  - reflexivity.
  - now rewrite IH.
Qed.

Lemma filter_open_app (ps qs : list pool) :
  length (filter (fun p => negb (ended p)) (ps ++ qs)%list)
  = length (filter (fun p => negb (ended p)) ps)
    + length (filter (fun p => negb (ended p)) qs).
Proof.
  rewrite filter_app. apply length_app.
Qed.

Section ExecutorFacts.

Variable env : obj.
Variable DB : Type.
Variable driver_query : string -> DB -> (value * value + exn) * DB.

(** A statement that succeeds runs on a pool of its own, created in the
    call and ended before the call returns. *)
Lemma queryPromise_success_ends_pool :
  forall (str : string) (w : World DB) (rows fields : value) (db' : DB),
    driver_query str (server w) = (inl (rows, fields), db') ->
    queryPromise env DB driver_query str w
    = (Ok rows, mkWorld (pools w ++ [end_pool (new_pool env)])%list db')
    /\ open_pools DB (snd (queryPromise env DB driver_query str w)) = open_pools DB w.
Proof.
  intros str w rows fields db' H.
  assert (E : queryPromise env DB driver_query str w
              = (Ok rows,
                 mkWorld (pools w ++ [end_pool (new_pool env)])%list db')).
  { unfold queryPromise, bind, createPool, pool_query,
      pool_end, modify, ret.
    cbn [server pools]. rewrite H. cbn [server pools].
    now rewrite end_nth_last. }
  split; [exact E |].
  rewrite E. unfold open_pools. cbn [snd pools].
  rewrite filter_open_app. simpl. lia.
Qed.

(** C5 fails on the code.  When [pool.query] rejects, [queryPromise]
    rejects with the same error before it reaches [pool.end()]: the pool
    the call created stays in the process, not ended. *)
Theorem queryPromise_failure_leaves_pool_open :
  forall (str : string) (w : World DB) (error : exn) (db' : DB),
    driver_query str (server w) = (inr error, db') ->
    queryPromise env DB driver_query str w
    = (Throw error, mkWorld (pools w ++ [new_pool env])%list db')
    /\ ended (new_pool env) = false
    /\ open_pools DB (snd (queryPromise env DB driver_query str w)) = S (open_pools DB w).
Proof.
  intros str w error db' H.
  assert (E : queryPromise env DB driver_query str w
              = (Throw error, mkWorld (pools w ++ [new_pool env])%list db')).
  { unfold queryPromise, bind, createPool, pool_query.
    cbn [server pools]. now rewrite H. }
  split; [exact E |]. split; [reflexivity |].
  rewrite E. unfold open_pools. cbn [snd pools].
  rewrite filter_open_app. simpl. lia.
Qed.

(** *** Retrying *)

Lemma failed_attempts_S (n : nat) (query : string) (w : World DB) :
  failed_attempts env DB driver_query (S n) query w
  = match queryPromise env DB driver_query query w with
    | (Throw e, w') =>
        match failed_attempts env DB driver_query n query w' with
        | Some (es, w'') => Some ((e :: es)%list, w'')
        | None => None
        end
    | _ => None
    end.
Proof. reflexivity. Qed.

Lemma retry_loop_S (fuel : nat) (query : string) (retries attempt : Z)
    (w : World DB) :
  retry_loop env DB driver_query (S fuel) query retries attempt w
  = if (attempt <? retries)%Z then
      match queryPromise env DB driver_query query w with
      | (Throw error, w') =>
          if (attempt + 1 >=? retries)%Z
          then (Throw (Error ("Query failed after " ++ string_of_Z retries
                                ++ " attempts: " ++ exn_message error)), w')
          else retry_loop env DB driver_query fuel query retries
                 (attempt + 1)%Z w'
      | other => other
      end
    else (Ok VUndefined, w).
Proof.
  cbn [retry_loop]. unfold try_catch, ret, throw.
  destruct (attempt <? retries)%Z; [| reflexivity].
  destruct (queryPromise env DB driver_query query w) as [[r|e|] w'];
    try reflexivity.
  destruct (attempt + 1 >=? retries)%Z; reflexivity.
Qed.

Lemma failed_attempts_length :
  forall (n : nat) (query : string) (w w' : World DB) (es : list exn),
    failed_attempts env DB driver_query n query w = Some (es, w') ->
    length es = n.
Proof.
  induction n as [|n IH]; intros query w w' es H.
  - cbn in H. inversion H; subst. reflexivity.
  - rewrite failed_attempts_S in H.
    destruct (queryPromise env DB driver_query query w)
      as [[rows|e|] w1]; try discriminate.
    destruct (failed_attempts env DB driver_query n query w1)
      as [[es1 w2]|] eqn:E; try discriminate.
    inversion H; subst. simpl. f_equal. eapply IH; eassumption.
Qed.

(** The loop returns the rows of the first attempt that succeeds, if that
    attempt is among those [retries] allows. *)
Lemma retry_loop_success :
  forall (k fuel : nat) (query : string) (retries attempt : Z)
         (w wk w' : World DB) (es : list exn) (rows : value),
    failed_attempts env DB driver_query k query w = Some (es, wk) ->
    queryPromise env DB driver_query query wk = (Ok rows, w') ->
    (attempt + Z.of_nat k < retries)%Z ->
    Z.to_nat (retries - attempt) <= fuel ->
    retry_loop env DB driver_query fuel query retries attempt w
    = (Ok rows, w').
Proof.
  induction k as [|k IH]; intros fuel query retries attempt w wk w' es rows
    Hfail Hok Hlt Hfuel.
  - cbn in Hfail. inversion Hfail; subst.
    destruct fuel as [|fuel]; [lia |].
    rewrite retry_loop_S, Hok.
    replace (attempt <? retries)%Z with true
      by (symmetry; apply Z.ltb_lt; lia).
    reflexivity.
  - rewrite failed_attempts_S in Hfail.
    destruct (queryPromise env DB driver_query query w)
      as [[r|e|] w1] eqn:E1; try discriminate.
    destruct (failed_attempts env DB driver_query k query w1)
      as [[es1 w2]|] eqn:E2; try discriminate.
    inversion Hfail; subst.
    destruct fuel as [|fuel]; [lia |].
    rewrite retry_loop_S, E1.
    replace (attempt <? retries)%Z with true
      by (symmetry; apply Z.ltb_lt; lia).
    replace (attempt + 1 >=? retries)%Z with false
      by (symmetry; rewrite Z.geb_leb; apply Z.leb_gt; lia).
    apply (IH fuel query retries (attempt + 1)%Z w1 wk w' es1 rows);
      try assumption; lia.
Qed.

(** When every attempt [retries] allows fails, the loop throws an [Error]
    that names [retries] and carries the message of the last failure. *)
Lemma retry_loop_exhausted :
  forall (k fuel : nat) (query : string) (retries attempt : Z)
         (w w' : World DB) (es : list exn) (e : exn),
    failed_attempts env DB driver_query (S k) query w
    = Some ((es ++ [e])%list, w') ->
    (attempt + Z.of_nat (S k) = retries)%Z ->
    S k <= fuel ->
    retry_loop env DB driver_query fuel query retries attempt w
    = (Throw (Error ("Query failed after " ++ string_of_Z retries
                       ++ " attempts: " ++ exn_message e)), w').
Proof.
  induction k as [|k IH]; intros fuel query retries attempt w w' es e
    Hfail Hsum Hfuel.
  - rewrite failed_attempts_S in Hfail.
    destruct (queryPromise env DB driver_query query w)
      as [[r|e1|] w1] eqn:E1; try discriminate.
    cbn in Hfail. inversion Hfail as [[Hes Hw]]. subst w1.
    assert (es = [] /\ e1 = e) as [-> ->].
    { destruct es as [|a [|b es]]; simpl in Hes; try discriminate.
      inversion Hes. now split. }
    destruct fuel as [|fuel]; [lia |].
    rewrite retry_loop_S, E1.
    replace (attempt <? retries)%Z with true
      by (symmetry; apply Z.ltb_lt; lia).
    replace (attempt + 1 >=? retries)%Z with true
      by (symmetry; rewrite Z.geb_leb; apply Z.leb_le; lia).
    reflexivity.
  - rewrite failed_attempts_S in Hfail.
    destruct (queryPromise env DB driver_query query w)
      as [[r|e1|] w1] eqn:E1; try discriminate.
    destruct (failed_attempts env DB driver_query (S k) query w1)
      as [[es1 w2]|] eqn:E2; try discriminate.
    inversion Hfail as [[Hes Hw]]. subst w2.
    pose proof (failed_attempts_length _ _ _ _ _ E2) as Hlen.
    destruct es as [|a es].
    { simpl in Hes. inversion Hes. subst es1. discriminate. }
    simpl in Hes. inversion Hes. subst a es1.
    destruct fuel as [|fuel]; [lia |].
    rewrite retry_loop_S, E1.
    replace (attempt <? retries)%Z with true
      by (symmetry; apply Z.ltb_lt; lia).
    replace (attempt + 1 >=? retries)%Z with false
      by (symmetry; rewrite Z.geb_leb; apply Z.leb_gt; lia).
    apply (IH fuel query retries (attempt + 1)%Z w1 w' es e);
      try assumption; lia.
Qed.

(** [queryPromise] ends in a value or an error. *)
Lemma queryPromise_completes (str : string) (w : World DB) :
  fst (queryPromise env DB driver_query str w) <> OutOfFuel.
Proof.
  unfold queryPromise, bind, createPool, pool_query, pool_end, modify, ret.
  cbn [server pools].
  destruct (driver_query str (server w)) as [[[rows fields]|e] db'];
    cbn; discriminate.
Qed.

(** The fuel [executeQueryWithRetry] gives its loop is never used up. *)
Lemma retry_loop_completes :
  forall (fuel : nat) (query : string) (retries attempt : Z) (w : World DB),
    Z.to_nat (retries - attempt) <= fuel ->
    fst (retry_loop env DB driver_query fuel query retries attempt w)
    <> OutOfFuel.
Proof.
  induction fuel as [|fuel IH]; intros query retries attempt w Hfuel.
  - cbn. replace (attempt <? retries)%Z with false
      by (symmetry; apply Z.ltb_ge; lia).
    cbn. discriminate.
  - rewrite retry_loop_S.
    destruct (attempt <? retries)%Z eqn:Hlt; [| cbn; discriminate].
    apply Z.ltb_lt in Hlt.
    pose proof (queryPromise_completes query w) as Hq.
    destruct (queryPromise env DB driver_query query w) as [[r|e|] w1];
      cbn [fst] in *; try discriminate; try congruence.
    destruct (attempt + 1 >=? retries)%Z; [cbn; discriminate |].
    apply IH. lia.
Qed.

Lemma executeQueryWithRetry_completes :
  forall (query : string) (retries : option Z) (w : World DB),
    fst (executeQueryWithRetry env DB driver_query query retries w)
    <> OutOfFuel.
Proof.
  intros query retries w. unfold executeQueryWithRetry.
  apply retry_loop_completes. lia.
Qed.

(** C6.  An omitted [retries] is 3.  If the first [k] attempts fail, with
    [k] below [retries], and the next one succeeds, [executeQueryWithRetry]
    returns the rows of that attempt.  If all the [retries] attempts fail
    (for [retries] of at least 1), it throws an [Error] whose message gives
    [retries], the number of attempts made, and the message of the last
    error. *)
Theorem executeQueryWithRetry_retries :
  forall (query : string) (retries : Z),
    executeQueryWithRetry env DB driver_query query None
    = executeQueryWithRetry env DB driver_query query (Some 3%Z)
    /\ (forall (k : nat) (w wk w' : World DB) (es : list exn) (rows : value),
          (Z.of_nat k < retries)%Z ->
          failed_attempts env DB driver_query k query w = Some (es, wk) ->
          queryPromise env DB driver_query query wk = (Ok rows, w') ->
          executeQueryWithRetry env DB driver_query query (Some retries) w
          = (Ok rows, w'))
    /\ (forall (w w' : World DB) (es : list exn) (e : exn),
          (1 <= retries)%Z ->
          failed_attempts env DB driver_query (Z.to_nat retries) query w
          = Some ((es ++ [e])%list, w') ->
          executeQueryWithRetry env DB driver_query query (Some retries) w
          = (Throw (Error ("Query failed after " ++ string_of_Z retries
                             ++ " attempts: " ++ exn_message e)), w')
          /\ Z.of_nat (length (es ++ [e])%list) = retries).
Proof.
  intros query retries. split; [reflexivity |]. split.
  - intros k w wk w' es rows Hk Hfail Hok.
    unfold executeQueryWithRetry.
    apply (retry_loop_success k _ query retries 0%Z w wk w' es rows);
      try assumption; lia.
  - intros w w' es e Hpos Hfail.
    pose proof (failed_attempts_length _ _ _ _ _ Hfail) as Hlen.
    split; [| lia].
    unfold executeQueryWithRetry.
    destruct (Z.to_nat retries) as [|k] eqn:Hk; [lia |].
    apply (retry_loop_exhausted k (S k) query retries 0%Z w w' es e);
      try assumption; lia.
Qed.

(** C9.  With [retries] at 0 or below the loop is not entered:
    [executeQueryWithRetry] returns [undefined] and leaves the process as
    it was, with no pool created and no statement sent. *)
Theorem executeQueryWithRetry_without_attempts :
  forall (query : string) (retries : Z) (w : World DB),
    (retries <= 0)%Z ->
    executeQueryWithRetry env DB driver_query query (Some retries) w
    = (Ok VUndefined, w).
Proof.
  intros query retries w H. unfold executeQueryWithRetry.
  replace (Z.to_nat retries) with 0 by lia.
  cbn. replace (0 <? retries)%Z with false
    by (symmetry; apply Z.ltb_ge; lia).
  reflexivity.
Qed.

End ExecutorFacts.

(** Two failures and then a success within three attempts; three failures
    in three attempts. *)
Lemma executeQueryWithRetry_retries_witness :
  (exists w',
      executeQueryWithRetry [] Scripted.DB Scripted.driver_query "SELECT 1"
        (Some 3%Z)
        (Scripted.start [Scripted.failure "busy"; Scripted.failure "busy";
                         Scripted.rows [[("1", VNum 1)]]])
      = (Ok (VArr [VObj [("1", VNum 1)]]), w'))
  /\ (exists w',
        executeQueryWithRetry [] Scripted.DB Scripted.driver_query "SELECT 1"
          (Some 3%Z)
          (Scripted.start [Scripted.failure "busy"; Scripted.failure "busy";
                           Scripted.failure "gone"])
        = (Throw (Error "Query failed after 3 attempts: gone"), w')).
Proof.
  split.
  - eexists.
    eapply (proj1 (proj2 (executeQueryWithRetry_retries [] Scripted.DB
                            Scripted.driver_query "SELECT 1" 3%Z)) 2%nat);
      reflexivity.
  - eexists.
    refine (proj1 (proj2 (proj2 (executeQueryWithRetry_retries [] Scripted.DB
                                   Scripted.driver_query "SELECT 1" 3%Z))
                     _ _ [Error "busy"; Error "busy"] (Error "gone") _ _)).
    + discriminate.
    + reflexivity.
Defined.

Lemma executeQueryWithRetry_without_attempts_witness :
  executeQueryWithRetry [] Scripted.DB Scripted.driver_query "SELECT 1"
    (Some 0%Z) (Scripted.start [Scripted.rows [[("1", VNum 1)]]])
  = (Ok VUndefined, Scripted.start [Scripted.rows [[("1", VNum 1)]]]).
Proof.
  apply executeQueryWithRetry_without_attempts. discriminate.
Defined.

Lemma queryPromise_failure_leaves_pool_open_witness :
  open_pools Scripted.DB
    (snd (queryPromise [] Scripted.DB Scripted.driver_query "SELEC 1"
            (Scripted.start [Scripted.failure "You have an error in your SQL syntax"])))
  = 1.
Proof.
  exact (proj2 (proj2 (queryPromise_failure_leaves_pool_open [] Scripted.DB
                         Scripted.driver_query "SELEC 1"
                         (Scripted.start
                            [Scripted.failure "You have an error in your SQL syntax"])
                         _ _ eq_refl))).
Defined.
(* ===================================================================== *)
(** ** Properties of [SQLObject] *)
(* ===================================================================== *)

(** *** The [data] accessor *)

Lemma get_first (l : list value) : get (VArr l) "0" = hd VUndefined l.
Proof. destruct l; reflexivity. Qed.

(** C10, amended.  Assigning a value that is not an array to [data] changes
    nothing.  Assigning an array makes [data] that array and stores its
    first element as the datum; [datum] then reads as that element when it
    is truthy, and as an empty object when the array is empty or its first
    element is falsy. *)
Theorem set_data_effect :
  forall (o : SQLObject) (v : value),
    (is_array v = false ->
     set_data v o = o
     /\ get_data (set_data v o) = get_data o
     /\ get_datum (set_data v o) = get_datum o)
    /\ (forall l : list value,
          v = VArr l ->
          get_data (set_data v o) = VArr l
          /\ _datum (set_data v o) = hd VUndefined l
          /\ get_datum (set_data v o)
             = if truthy (hd VUndefined l) then hd VUndefined l else VObj []).
Proof.
  intros o v. split.
  - intros H. destruct v; try discriminate; repeat split; reflexivity.
  - intros l ->. unfold set_data. rewrite get_first.
    split; [reflexivity |]. split; [reflexivity |].
    unfold get_datum, or_else, get_data.
    cbn [_datum _data set_datum assign_data].
    rewrite get_first.
    destruct (truthy (hd VUndefined l)); reflexivity.
Qed.

Lemma set_data_effect_witness :
  get_datum (set_data (VStr "row") blank) = get_datum blank
  /\ get_datum (set_data (VArr [VObj [("guid", VStr "g1")]; VObj []]) blank)
     = VObj [("guid", VStr "g1")].
Proof.
  split.
  - exact (proj2 (proj2 (proj1 (set_data_effect blank (VStr "row")) eq_refl))).
  - exact (proj2 (proj2 (proj2 (set_data_effect blank
                                  (VArr [VObj [("guid", VStr "g1")]; VObj []]))
                           _ eq_refl))).
Defined.

(** C10 as stated fails on the empty array: [data] becomes [[]], whose
    first element is [undefined], and [datum] reads as [{}]. *)
Lemma set_data_first_element_counterexample :
  get_data (set_data (VArr []) blank) = VArr []
  /\ get (VArr []) "0" = VUndefined
  /\ get_datum (set_data (VArr []) blank) = VObj []
  /\ get_datum (set_data (VArr []) blank) <> get (VArr []) "0".
Proof.
  repeat split. discriminate.
Qed.

(** *** Running a method *)

Lemma bind_ok {S A B} (m : M S A) (k : A -> M S B) (s s' : S) (a : A) :
  m s = (Ok a, s') -> bind m k s = k a s'.
Proof. intros H. unfold bind. now rewrite H. Qed.

Lemma bind_throw {S A B} (m : M S A) (k : A -> M S B) (s s' : S) (e : exn) :
  m s = (Throw e, s') -> bind m k s = (Throw e, s').
Proof. intros H. unfold bind. now rewrite H. Qed.

Lemma buildSelectQuery_truthy (globalThis : obj) (table : value)
    (properties : obj) (id key all args : value) (query : string) :
  buildSelectQuery globalThis table properties id key all args = Ok query ->
  truthy (VStr query) = true.
Proof.
  unfold buildSelectQuery.
  destruct (require_object_coercible args "limit"); try discriminate.
  cbn [rbind].
  destruct (map_result _ _); try discriminate.
  cbn [rbind]. intros H. inversion H. reflexivity.
Qed.

Lemma buildInsertQuery_truthy (table : value) (data properties : obj)
    (safe : value) (query : string) :
  buildInsertQuery table data properties safe = Some query ->
  truthy (VStr query) = true.
Proof.
  unfold buildInsertQuery.
  destruct (length (insert_elements data properties) =? 0)%nat;
    try discriminate.
  intros H. inversion H. reflexivity.
Qed.

(** *** Writing properties *)

Lemma lookup_update (k k' : string) (v : value) (o : obj) :
  has_own k' o = true ->
  lookup k (update k' v o) = if k' =? k then Some v else lookup k o.
Proof.
  unfold has_own. induction o as [|[k0 v0] o IH]; simpl.
  - discriminate.
  - destruct (String.eqb_spec k0 k') as [-> | Hne]; simpl.
    + intros _. destruct (k' =? k); reflexivity.
    + intros H. rewrite (IH H).
      destruct (String.eqb_spec k0 k) as [-> | Hne'].
      * destruct (String.eqb_spec k' k) as [-> | _]; [congruence | reflexivity].
      * reflexivity.
Qed.

Lemma lookup_insert_index (k k' : string) (n : N) (v : value) (o : obj) :
  has_own k' o = false ->
  lookup k (insert_index n k' v o) = if k' =? k then Some v else lookup k o.
Proof.
  unfold has_own. induction o as [|[k0 v0] o IH]; simpl.
  - reflexivity.
  - destruct (String.eqb_spec k0 k') as [-> | Hne]; [discriminate |].
    intros H.
    destruct (array_index k0) as [n0|]; [| reflexivity].
    destruct (n0 <? n)%N; [| reflexivity].
    simpl. rewrite (IH H).
    destruct (String.eqb_spec k0 k) as [-> | Hne'].
    + destruct (String.eqb_spec k' k) as [-> | _]; [congruence | reflexivity].
    + reflexivity.
Qed.

Lemma lookup_append (k k' : string) (v : value) (o : obj) :
  has_own k' o = false ->
  lookup k (o ++ [(k', v)])%list = if k' =? k then Some v else lookup k o.
Proof.
  unfold has_own. induction o as [|[k0 v0] o IH]; simpl.
  - reflexivity.
  - destruct (String.eqb_spec k0 k') as [-> | Hne]; [discriminate |].
    intros H. rewrite (IH H).
    destruct (String.eqb_spec k0 k) as [-> | Hne'].
    + destruct (String.eqb_spec k' k) as [-> | _]; [congruence | reflexivity].
    + reflexivity.
Qed.

(** After [o[k'] = v], [o[k']] is [v] and the other properties are as
    before. *)
Lemma lookup_set_prop (k k' : string) (v : value) (o : obj) :
  lookup k (set_prop k' v o) = if k' =? k then Some v else lookup k o.
Proof.
  unfold set_prop. destruct (has_own k' o) eqn:H.
  - now apply lookup_update.
  - destruct (array_index k').
    + now apply lookup_insert_index.
    + now apply lookup_append.
Qed.

Lemma fold_fields_lookup (_args : value) (ks : list string) :
  forall (acc : obj) (k : string),
    lookup k
      (fold_left
         (fun create key =>
            if truthy _args && truthy (get _args key)
            then set_prop key (get _args key) create
            else create) ks acc)
    = if existsb (String.eqb k) ks && (truthy _args && truthy (get _args k))
      then Some (get _args k) else lookup k acc.
Proof.
  induction ks as [|a ks IH]; intros acc k; simpl.
  - reflexivity.
  - rewrite IH.
    destruct (existsb (String.eqb k) ks
              && (truthy _args && truthy (get _args k))) eqn:E.
    + rewrite andb_true_iff in E. destruct E as [E1 E2].
      now rewrite E1, E2, orb_true_r.
    + destruct (String.eqb_spec k a) as [-> | Hne]; simpl.
      * destruct (truthy _args && truthy (get _args a)) eqn:T.
        -- rewrite lookup_set_prop, String.eqb_refl. reflexivity.
        -- reflexivity.
      * rewrite E.
        destruct (truthy _args && truthy (get _args a)); [| reflexivity].
        rewrite lookup_set_prop.
        destruct (String.eqb_spec a k); [congruence | reflexivity].
Qed.

(** The object [create] builds from the fields it is given has, for each
    key of the property map, [_args[key]] when that is truthy, and has
    nothing else. *)
Lemma filter_fields_lookup (properties fields : obj) (k : string) :
  lookup k (filter_fields properties (VObj fields))
  = if existsb (String.eqb k) (keys (VObj properties))
       && truthy (get (VObj fields) k)
    then Some (get (VObj fields) k) else None.
Proof.
  unfold filter_fields. rewrite fold_fields_lookup. reflexivity.
Qed.

(** A field of that object whose name is not a member of
    [Object.prototype] is a field [create] was given, under a key of the
    property map, with a truthy value. *)
Lemma filter_fields_subset (properties fields : obj) (k : string) (v : value) :
  lookup k (filter_fields properties (VObj fields)) = Some v ->
  inherited k = VUndefined ->
  In k (keys (VObj properties)) /\ lookup k fields = Some v
  /\ truthy v = true.
Proof.
  rewrite filter_fields_lookup. intros H Hk.
  destruct (existsb (String.eqb k) (keys (VObj properties))) eqn:E;
    [| discriminate].
  destruct (truthy (get (VObj fields) k)) eqn:T; [| discriminate].
  cbn [andb] in H. inversion H; subst. clear H.
  apply existsb_exists in E. destruct E as (k' & Hin & Heq).
  apply String.eqb_eq in Heq. subst k'.
  split; [exact Hin |].
  cbn [get] in *. destruct (lookup k fields) as [x|].
  - now split.
  - rewrite Hk in T. discriminate.
Qed.

Section MethodFacts.

Variable globalThis : obj.
Variable env : obj.
Variable DB : Type.
Variable driver_query : string -> DB -> (value * value + exn) * DB.

(** Initialising assigns [properties] and nothing else. *)
Lemma ensure_initialized_state :
  forall (o o1 : SQLObject) (w w1 : World DB) (r : result value),
    ensure_initialized env DB driver_query (o, w) = (r, (o1, w1)) ->
    o1 = o \/ exists p, o1 = set_properties p o.
Proof.
  intros o o1 w w1 r.
  unfold ensure_initialized, initialize, bind, this, await, assign, modify,
    ret.
  cbn [fst snd].
  unfold get_initialized.
  destruct (_initialized o) eqn:Hi; cbn [negb fst snd].
  - intros H. inversion H; subst. now left.
  - rewrite Hi. cbn [fst snd].
    destruct (getPropertiesFromDB env DB driver_query (get_table o) w)
      as [[p|e|] w'] eqn:E; cbn [fst snd];
      intros H; inversion H; subst.
    + right. now exists p.
    + now left.
    + now left.
Qed.

Lemma ensure_initialized_row :
  forall (o o1 : SQLObject) (w w1 : World DB) (r : result value),
    ensure_initialized env DB driver_query (o, w) = (r, (o1, w1)) ->
    _data o1 = _data o /\ _datum o1 = _datum o
    /\ get_data o1 = get_data o /\ get_datum o1 = get_datum o.
Proof.
  intros o o1 w w1 r H.
  destruct (ensure_initialized_state _ _ _ _ _ H) as [-> | [p ->]];
    repeat split; reflexivity.
Qed.

(** C7.  Once the property map is there and the SELECT is built and has run:
    on an empty result [read] records the statement and the empty array as
    the last operation, returns 0 and leaves [data], [datum] and the read
    flag as they were; on a result with rows it makes them [data], makes
    the first of them [datum], records the operation, sets the read flag
    and returns the rows. *)
Theorem read_result :
  forall (args : value) (o o1 : SQLObject) (w w1 w2 : World DB) (v0 : value)
         (query : string) (rows : list obj),
    ensure_initialized env DB driver_query (o, w) = (Ok v0, (o1, w1)) ->
    buildSelectQuery globalThis (get_table o1) (get_properties o1)
      (get_id o1) (get_key o1) (default_to (all o1) (VBool false))
      (default_to args (VObj [])) = Ok query ->
    queryPromise env DB driver_query query w1
    = (Ok (VArr (map VObj rows)), w2) ->
    (rows = [] ->
     exists o',
       read globalThis env DB driver_query args (o, w)
       = (Ok (VNum 0), (o', w2))
       /\ get_last o' = (VStr query, VArr [])
       /\ _data o' = _data o /\ _datum o' = _datum o
       /\ get_data o' = get_data o /\ get_datum o' = get_datum o
       /\ _read o' = _read o)
    /\ (forall (r : obj) (rest : list obj),
          rows = r :: rest ->
          exists o',
            read globalThis env DB driver_query args (o, w)
            = (Ok (VArr (map VObj rows)), (o', w2))
            /\ get_last o' = (VStr query, VArr (map VObj rows))
            /\ get_data o' = VArr (map VObj rows)
            /\ get_datum o' = VObj r
            /\ _read o' = true).
Proof.
  intros args o o1 w w1 w2 v0 query rows Hinit Hquery Hrun.
  pose proof (buildSelectQuery_truthy _ _ _ _ _ _ _ _ Hquery) as Htruthy.
  destruct (ensure_initialized_row _ _ _ _ _ Hinit) as (Hd & Hm & Hgd & Hgm).
  assert (Hread : _read o1 = _read o).
  { destruct (ensure_initialized_state _ _ _ _ _ Hinit) as [-> | [p ->]];
      reflexivity. }
  split.
  - intros ->.
    exists (set_last (VStr query) (VArr []) o1).
    split.
    + unfold read. cbv zeta. rewrite (bind_ok _ _ _ _ _ Hinit).
      unfold bind, this, lift_result, await, assign, modify, ret.
      cbn [fst snd]. rewrite Hquery. cbn [fst snd]. rewrite Hrun.
      reflexivity.
    + unfold set_last, or_else. rewrite Htruthy.
      repeat split; assumption.
  - intros r rest ->.
    exists (assign_read true
              (set_last (VStr query) (VArr (map VObj (r :: rest)))
                 (set_datum (VObj r)
                    (set_data (VArr (map VObj (r :: rest))) o1)))).
    split.
    + unfold read. cbv zeta. rewrite (bind_ok _ _ _ _ _ Hinit).
      unfold bind, this, lift_result, await, assign, modify, ret.
      cbn [fst snd]. rewrite Hquery. cbn [fst snd]. rewrite Hrun.
      reflexivity.
    + unfold set_last, or_else. rewrite Htruthy.
      repeat split.
Qed.

(** C8.  [create] replaces the row before it builds the INSERT, when it
    gets that far.  When loading the property map throws, [create] throws
    the same error, and when the argument is [undefined] or [null] it
    throws a [TypeError]; in both cases [datum] and [data] are as before.
    For any other argument, on a property map without a key [__proto__]
    and a table that prints, [create] makes the filtered fields both
    [datum] and the only row of [data], and only then builds the INSERT.
    The filtered fields are, for each key of the property map, the truthy
    [_args[key]]; that is a field [create] was given unless the key names
    a member of [Object.prototype].  When no INSERT can be built [create]
    returns 0, and when the INSERT, built of fields that print, fails, it
    returns [undefined]; either way the instance holds the filtered fields
    in place of the row it had. *)
Theorem create_overwrites_row_state :
  forall (args : value) (o : SQLObject) (w : World DB),
    (forall (e : exn) (o' : SQLObject) (w' : World DB),
        ensure_initialized env DB driver_query (o, w) = (Throw e, (o', w')) ->
        create globalThis env DB driver_query args (o, w)
        = (Throw e, (o', w'))
        /\ get_datum o' = get_datum o /\ get_data o' = get_data o)
    /\ (forall (v0 : value) (o1 : SQLObject) (w1 : World DB),
          ensure_initialized env DB driver_query (o, w) = (Ok v0, (o1, w1)) ->
          (is_present args = false ->
           (exists message : string,
               create globalThis env DB driver_query args (o, w)
               = (Throw (TypeError message), (o1, w1)))
           /\ get_datum o1 = get_datum o /\ get_data o1 = get_data o)
          /\ (is_present args = true ->
              has_own "__proto__" (get_properties o1) = false ->
              printable (get_table o1) = true ->
              let properties := get_properties o1 in
              let fields := own_entries args in
              let created := filter_fields properties (VObj fields) in
              let safe := default_to (get args "safe") (VBool true) in
              let o2 :=
                set_data (VArr [VObj created])
                  (set_datum (VObj created) o1) in
              (get_datum o2 = VObj created
               /\ get_data o2 = VArr [VObj created])
              /\ (forall k : string,
                    lookup k created
                    = if existsb (String.eqb k) (keys (VObj properties))
                         && truthy (get (VObj fields) k)
                      then Some (get (VObj fields) k) else None)
              /\ (forall (k : string) (v : value),
                    lookup k created = Some v ->
                    inherited k = VUndefined ->
                    In k (keys (VObj properties)) /\ lookup k fields = Some v
                    /\ truthy v = true)
              /\ (buildInsertQuery (get_table o1) created properties safe
                  = None ->
                  create globalThis env DB driver_query args (o, w)
                  = (Ok (VNum 0), (o2, w1)))
              /\ (forall (query : string) (error : exn) (w2 : World DB),
                    forallb (fun field => printable (snd field)) fields
                    = true ->
                    buildInsertQuery (get_table o1) created properties safe
                    = Some query ->
                    queryPromise env DB driver_query query w1
                    = (Throw error, w2) ->
                    create globalThis env DB driver_query args (o, w)
                    = (Ok VUndefined, (o2, w2))))).
Proof.
  intros args o w. split.
  - intros e o' w' Hinit.
    split.
    + unfold create. now rewrite (bind_throw _ _ _ _ _ Hinit).
    + destruct (ensure_initialized_row _ _ _ _ _ Hinit) as (_ & _ & Hd & Hm).
      now split.
  - intros v0 o1 w1 Hinit. split.
    + intros Hargs.
      destruct (ensure_initialized_row _ _ _ _ _ Hinit) as (_ & _ & Hd & Hm).
      split; [| now split].
      unfold create. rewrite (bind_ok _ _ _ _ _ Hinit).
      unfold bind, this, lift_result, await, assign, modify, ret.
      destruct args; try discriminate; eexists; reflexivity.
    + intros Hargs _ _ properties fields created safe o2.
      assert (Hok : require_object_coercible args "safe" = Ok tt)
        by (destruct args; try discriminate; reflexivity).
      split; [split; reflexivity |].
      split; [intros k; apply filter_fields_lookup |].
      split; [intros k v; apply filter_fields_subset |].
      split.
      * intros Hnone.
        unfold create. rewrite (bind_ok _ _ _ _ _ Hinit).
        unfold bind, this, lift_result, await, assign, modify, ret.
        cbn [fst snd]. rewrite Hok.
        fold properties. fold fields. fold created. fold safe.
        rewrite Hnone. reflexivity.
      * intros query error w2 _ Hsome Hrun.
        pose proof (buildInsertQuery_truthy _ _ _ _ _ Hsome) as Htruthy.
        unfold create. rewrite (bind_ok _ _ _ _ _ Hinit).
        unfold bind, this, lift_result, await, assign, modify, ret.
        cbn [fst snd]. rewrite Hok.
        fold properties. fold fields. fold created. fold safe.
        rewrite Hsome, Htruthy. cbn [negb].
        unfold try_catch. cbn [fst snd]. rewrite Hrun.
        reflexivity.
Qed.

End MethodFacts.

(** *** Runs on the scripted server *)

Example widgets_constructed :
  new_SQLObject (VObj [("table", VStr "widgets"); ("id", VStr "g1")])
  = Ok widgets.
Proof. reflexivity. Qed.

Lemma read_result_witness :
  (exists o' w',
      read [] [] Scripted.DB Scripted.driver_query VUndefined
        (widgets, Scripted.start [widgets_columns; Scripted.rows []])
      = (Ok (VNum 0), (o', w'))
      /\ get_data o' = get_data widgets
      /\ get_datum o' = get_datum widgets)
  /\ (exists o' w',
        read [] [] Scripted.DB Scripted.driver_query VUndefined
          (widgets,
           Scripted.start
             [widgets_columns;
              Scripted.rows [[("guid", VStr "g1"); ("name", VStr "a")]]])
        = (Ok (VArr [VObj [("guid", VStr "g1"); ("name", VStr "a")]]),
           (o', w'))
        /\ get_datum o' = VObj [("guid", VStr "g1"); ("name", VStr "a")]
        /\ _read o' = true).
Proof.
  split.
  - refine (match read_result [] [] Scripted.DB Scripted.driver_query
                    VUndefined widgets _
                    (Scripted.start [widgets_columns; Scripted.rows []])
                    _ _ _ _ [] _ _ _
            with conj Hempty _ => _ end); [(lazy; reflexivity) .. |].
    destruct (Hempty eq_refl) as (o' & Hr & _ & _ & _ & Hd & Hm & _).
    exists o'. eexists. split; [exact Hr |]. split; assumption.
  - refine (match read_result [] [] Scripted.DB Scripted.driver_query
                    VUndefined widgets _
                    (Scripted.start
                       [widgets_columns;
                        Scripted.rows
                          [[("guid", VStr "g1"); ("name", VStr "a")]]])
                    _ _ _ _ [[("guid", VStr "g1"); ("name", VStr "a")]] _ _ _
            with conj _ Hrows => _ end); [(lazy; reflexivity) .. |].
    destruct (Hrows _ _ eq_refl) as (o' & Hr & _ & _ & Hm & Hread).
    exists o'. eexists. split; [exact Hr |]. split; assumption.
Defined.

Lemma create_overwrites_row_state_witness :
  (exists o' w',
      create [] [] Scripted.DB Scripted.driver_query
        (VObj [("colour", VStr "red")])
        (widgets, Scripted.start [widgets_columns])
      = (Ok (VNum 0), (o', w'))
      /\ get_datum o' = VObj []
      /\ get_data o' = VArr [VObj []])
  /\ (exists o' w',
        create [] [] Scripted.DB Scripted.driver_query
          (VObj [("name", VStr "a"); ("colour", VStr "red")])
          (set_data (VArr [VObj [("guid", VStr "g1"); ("name", VStr "z")]])
             widgets,
           Scripted.start
             [widgets_columns; Scripted.failure "Duplicate entry"])
        = (Ok VUndefined, (o', w'))
        /\ get_datum o' = VObj [("name", VStr "a")]
        /\ get_data o' = VArr [VObj [("name", VStr "a")]])
  /\ (exists o' w' message,
        create [] [] Scripted.DB Scripted.driver_query VNull
          (widgets, Scripted.start [widgets_columns])
        = (Throw (TypeError message), (o', w'))
        /\ get_datum o' = get_datum widgets)
  /\ (exists o' w' e,
        create [] [] Scripted.DB Scripted.driver_query
          (VObj [("name", VStr "a")])
          (widgets, Scripted.start [Scripted.failure "Access denied"])
        = (Throw e, (o', w'))
        /\ get_datum o' = get_datum widgets).
Proof.
  split; [| split; [| split]].
  - refine (match proj2 (create_overwrites_row_state [] [] Scripted.DB
                           Scripted.driver_query
                           (VObj [("colour", VStr "red")]) widgets
                           (Scripted.start [widgets_columns])) _ _ _ _
            with conj _ Hobject => _ end); [lazy; reflexivity |].
    destruct (Hobject eq_refl eq_refl eq_refl) as (_ & _ & _ & Hzero & _).
    eexists. eexists. split; [exact (Hzero eq_refl) |].
    split; reflexivity.
  - refine (match proj2 (create_overwrites_row_state [] [] Scripted.DB
                           Scripted.driver_query
                           (VObj [("name", VStr "a"); ("colour", VStr "red")])
                           (set_data
                              (VArr [VObj [("guid", VStr "g1");
                                           ("name", VStr "z")]])
                              widgets)
                           (Scripted.start
                              [widgets_columns;
                               Scripted.failure "Duplicate entry"])) _ _ _ _
            with conj _ Hobject => _ end); [lazy; reflexivity |].
    destruct (Hobject eq_refl eq_refl eq_refl) as (_ & _ & _ & _ & Hfail).
    eexists. eexists. split.
    + exact (Hfail _ _ _ eq_refl eq_refl eq_refl).
    + split; reflexivity.
  - refine (match proj2 (create_overwrites_row_state [] [] Scripted.DB
                           Scripted.driver_query VNull widgets
                           (Scripted.start [widgets_columns])) _ _ _ _
            with conj Hnull _ => _ end); [lazy; reflexivity |].
    destruct (Hnull eq_refl) as ((message & Hrun) & Hdatum & _).
    eexists. eexists. exists message. split; [exact Hrun | exact Hdatum].
  - refine (match proj1 (create_overwrites_row_state [] [] Scripted.DB
                           Scripted.driver_query (VObj [("name", VStr "a")])
                           widgets
                           (Scripted.start
                              [Scripted.failure "Access denied"])) _ _ _ _
            with conj Hrun (conj Hdatum _) => _ end); [lazy; reflexivity |].
    eexists. eexists. eexists. split; [exact Hrun | exact Hdatum].
Defined.

(** A call without fields changes nothing: it throws a [TypeError] after
    the property map has loaded, and the instance still holds the row it
    had, not the empty object that filtering no fields would give.  A call
    on a server that refuses to list the columns throws as well and leaves
    the row.  And for a column named [constructor] the filtered fields hold
    a member of [Object.prototype] that is no field of the argument. *)
Lemma create_leaves_row_counterexample :
  (exists message : string,
      fst (create [] [] Scripted.DB Scripted.driver_query VUndefined
             (set_data (VArr [VObj [("guid", VStr "g1"); ("name", VStr "z")]])
                widgets,
              Scripted.start [widgets_columns]))
      = Throw (TypeError message))
  /\ get_datum
       (fst (snd (create [] [] Scripted.DB Scripted.driver_query VUndefined
                    (set_data
                       (VArr [VObj [("guid", VStr "g1"); ("name", VStr "z")]])
                       widgets,
                     Scripted.start [widgets_columns]))))
     = VObj [("guid", VStr "g1"); ("name", VStr "z")]
  /\ get_data
       (fst (snd (create [] [] Scripted.DB Scripted.driver_query VUndefined
                    (set_data
                       (VArr [VObj [("guid", VStr "g1"); ("name", VStr "z")]])
                       widgets,
                     Scripted.start [widgets_columns]))))
     = VArr [VObj [("guid", VStr "g1"); ("name", VStr "z")]]
  /\ filter_fields [("guid", VStr "varchar"); ("name", VStr "varchar")]
       (VObj (own_entries VUndefined))
     = []
  /\ fst (create [] [] Scripted.DB Scripted.driver_query
            (VObj [("name", VStr "a")])
            (set_data (VArr [VObj [("guid", VStr "g1"); ("name", VStr "z")]])
               widgets,
             Scripted.start [Scripted.failure "Access denied"]))
     = Throw (Error "Failed to load properties from table: widgets")
  /\ get_datum
       (fst (snd (create [] [] Scripted.DB Scripted.driver_query
                    (VObj [("name", VStr "a")])
                    (set_data
                       (VArr [VObj [("guid", VStr "g1"); ("name", VStr "z")]])
                       widgets,
                     Scripted.start [Scripted.failure "Access denied"]))))
     = VObj [("guid", VStr "g1"); ("name", VStr "z")]
  /\ filter_fields [("constructor", VStr "int")] (VObj [])
     = [("constructor", native_function "Object")].
Proof.
  split; [eexists; reflexivity |].
  repeat split.
Qed.

(* ===================================================================== *)
(** ** Further properties of the query builders *)
(* ===================================================================== *)

(** *** Escaping *)

Lemma expand_app (f : ascii -> string) (a b : string) :
  expand f (a ++ b) = expand f a ++ expand f b.
Proof.
  induction a as [|c a IH]; simpl.
  - reflexivity.
  - now rewrite IH, append_assoc.
Qed.

Lemma expand_expand (f g : ascii -> string) (s : string) :
  expand g (expand f s) = expand (fun a => expand g (f a)) s.
Proof.
  induction s as [|c s IH]; simpl.
  - reflexivity.
  - now rewrite expand_app, IH.
Qed.

Lemma expand_ext (f g : ascii -> string) (s : string) :
  (forall a, f a = g a) -> expand f s = expand g s.
Proof.
  intros H. induction s as [|c s IH]; simpl.
  - reflexivity.
  - now rewrite H, IH.
Qed.

Lemma replace_char_expand (c : ascii) (by_ s : string) :
  replace_char c by_ s
  = expand (fun a => if Ascii.eqb a c then by_ else String a EmptyString) s.
Proof.
  induction s as [|a s IH]; simpl.
  - reflexivity.
  - now rewrite IH.
Qed.

Lemma escape_passes (a : ascii) :
  expand
    (fun a1 =>
       expand
         (fun a2 =>
            expand
              (fun a3 =>
                 if Ascii.eqb a3 (ascii_of_nat 0) then backslash ++ "0"
                 else String a3 EmptyString)
              (if Ascii.eqb a2 (ascii_of_nat 34) then backslash ++ dq
               else String a2 EmptyString))
         (if Ascii.eqb a1 "'"%char then backslash ++ "'"
          else String a1 EmptyString))
    (if Ascii.eqb a (ascii_of_nat 92) then backslash ++ backslash
     else String a EmptyString)
  = escape_char a.
Proof.
  unfold escape_char.
  destruct (Ascii.eqb_spec a (ascii_of_nat 92)) as [-> | H1]; [reflexivity |].
  destruct (Ascii.eqb_spec a "'"%char) as [-> | H2]; [reflexivity |].
  destruct (Ascii.eqb_spec a (ascii_of_nat 34)) as [-> | H3]; [reflexivity |].
  destruct (Ascii.eqb_spec a (ascii_of_nat 0)) as [-> | H4]; [reflexivity |].
  cbn [expand append].
  apply Ascii.eqb_neq in H2. rewrite H2. cbn [expand append].
  apply Ascii.eqb_neq in H3. rewrite H3. cbn [expand append].
  apply Ascii.eqb_neq in H4. rewrite H4. reflexivity.
Qed.

Lemma escapeValue_expand (v : value) :
  escapeValue v = expand escape_char (to_string v).
Proof.
  unfold escapeValue.
  rewrite !replace_char_expand, !expand_expand.
  apply expand_ext. intros a. apply escape_passes.
Qed.

Lemma length_append (a b : string) :
  String.length (a ++ b) = String.length a + String.length b.
Proof.
  induction a as [|c a IH]; simpl; [reflexivity | now rewrite IH].
Qed.

Lemma length_expand_escape (s : string) :
  String.length (expand escape_char s)
  = String.length s
    + count_char (ascii_of_nat 92) s + count_char "'"%char s
    + count_char (ascii_of_nat 34) s + count_char (ascii_of_nat 0) s.
Proof.
  induction s as [|c s IH]; [reflexivity |].
  cbn [expand count_char String.length].
  rewrite length_append, IH. unfold escape_char.
  destruct (Ascii.eqb_spec c (ascii_of_nat 92)) as [-> | H1];
    [cbn; lia |].
  destruct (Ascii.eqb_spec c "'"%char) as [-> | H2]; [cbn; lia |].
  destruct (Ascii.eqb_spec c (ascii_of_nat 34)) as [-> | H3]; [cbn; lia |].
  destruct (Ascii.eqb_spec c (ascii_of_nat 0)) as [-> | H4]; [cbn; lia |].
  cbn. lia.
Qed.

(** X1.  [escapeValue] works character by character on [String(value)]:
    each backslash, single quote and double quote gets one backslash before
    it, each NUL becomes backslash 0, and every other character stays as it
    is; the four passes never escape what an earlier pass put in.  So the
    output is longer than the text by the number of those characters. *)
Theorem escapeValue_per_character :
  forall value : value,
    escapeValue value = expand escape_char (to_string value)
    /\ String.length (escapeValue value)
       = String.length (to_string value)
         + count_char (ascii_of_nat 92) (to_string value)
         + count_char "'"%char (to_string value)
         + count_char (ascii_of_nat 34) (to_string value)
         + count_char (ascii_of_nat 0) (to_string value).
Proof.
  intros v. rewrite escapeValue_expand.
  split; [reflexivity | apply length_expand_escape].
Qed.

Lemma unescape_escape_char (c : ascii) (t : string) :
  unescape (escape_char c ++ t)
  = match unescape t with Some u => Some (String c u) | None => None end.
Proof.
  unfold escape_char.
  destruct (Ascii.eqb_spec c (ascii_of_nat 92)) as [-> | H1]; [reflexivity |].
  destruct (Ascii.eqb_spec c "'"%char) as [-> | H2]; [reflexivity |].
  destruct (Ascii.eqb_spec c (ascii_of_nat 34)) as [-> | H3]; [reflexivity |].
  destruct (Ascii.eqb_spec c (ascii_of_nat 0)) as [-> | H4]; [reflexivity |].
  cbn [append unescape].
  apply Ascii.eqb_neq in H1, H2, H3, H4. rewrite H1, H2, H3, H4.
  reflexivity.
Qed.

Lemma unescape_expand (s : string) :
  unescape (expand escape_char s) = Some s.
Proof.
  induction s as [|c s IH].
  - reflexivity.
  - cbn [expand]. rewrite unescape_escape_char, IH. reflexivity.
Qed.

(** X2.  Undoing the substitutions on the output of [escapeValue] gives
    [String(value)] back: in the output every quote and NUL has an escaping
    backslash before it and no backslash is left dangling, and two values
    with different texts never get the same output. *)
Theorem escapeValue_round_trip :
  (forall value : value,
      unescape (escapeValue value) = Some (to_string value))
  /\ (forall a b : value,
        escapeValue a = escapeValue b -> to_string a = to_string b).
Proof.
  assert (H : forall v, unescape (escapeValue v) = Some (to_string v)).
  { intros v. rewrite escapeValue_expand. apply unescape_expand. }
  split; [exact H |].
  intros a b E. pose proof (H a) as Ha. rewrite E, H in Ha.
  now inversion Ha.
Qed.

Lemma occurs_app (c : ascii) (a b : string) :
  occurs c (a ++ b) = occurs c a || occurs c b.
Proof.
  induction a as [|x a IH]; simpl; [reflexivity |].
  now rewrite IH, orb_assoc.
Qed.

Lemma occurs_expand (c : ascii) (f : ascii -> string) (s : string) :
  (forall a, occurs c (f a) = Ascii.eqb a c) ->
  occurs c (expand f s) = occurs c s.
Proof.
  intros H. induction s as [|a s IH]; simpl; [reflexivity |].
  now rewrite occurs_app, H, IH.
Qed.

Lemma replace_char_absent (c : ascii) (by_ s : string) :
  occurs c s = false -> replace_char c by_ s = s.
Proof.
  induction s as [|a s IH]; simpl; [reflexivity |].
  intros H. apply orb_false_iff in H. destruct H as [Ha Hs].
  now rewrite Ha, (IH Hs).
Qed.

Lemma replace_char_longer (c a b : ascii) (s : string) :
  String.length s
  <= String.length (replace_char c (String a (String b EmptyString)) s)
  /\ (occurs c s = true ->
      String.length s
      < String.length (replace_char c (String a (String b EmptyString)) s)).
Proof.
  induction s as [|x s [IH1 IH2]]; simpl.
  - split; [lia | discriminate].
  - destruct (Ascii.eqb x c); simpl.
    + split; [lia | intros _; lia].
    + split; [lia |]. intros H. specialize (IH2 H). lia.
Qed.

(** The first three passes neither add nor remove a NUL. *)
Lemma escapeSQL_passes_keep_nul (s : string) :
  occurs (ascii_of_nat 0)
    (replace_char (ascii_of_nat 34) (backslash ++ dq)
       (replace_char "'"%char (backslash ++ "'")
          (replace_char (ascii_of_nat 92) (backslash ++ backslash) s)))
  = occurs (ascii_of_nat 0) s.
Proof.
  rewrite !replace_char_expand.
  rewrite !occurs_expand; try reflexivity;
    intros a;
    match goal with
    | |- context [Ascii.eqb a ?c] =>
        destruct (Ascii.eqb_spec a c) as [-> | H]; [reflexivity |]
    end;
    cbn; rewrite orb_false_r; reflexivity.
Qed.

(** X3.  On a string [escapeSQL] gives what [escapeValue] gives exactly
    when the string holds no NUL, which [escapeSQL] leaves unescaped; a
    value that is not a string comes back as it is, not as text. *)
Theorem escapeSQL_agrees_without_nul :
  (forall s : string,
      escapeSQL (VStr s) = VStr (escapeValue (VStr s))
      <-> occurs (ascii_of_nat 0) s = false)
  /\ (forall v : value, (forall s, v <> VStr s) -> escapeSQL v = v).
Proof.
  split.
  - intros s. unfold escapeSQL, escapeValue. cbn [to_string].
    set (t := replace_char (ascii_of_nat 34) (backslash ++ dq)
                (replace_char "'"%char (backslash ++ "'")
                   (replace_char (ascii_of_nat 92) (backslash ++ backslash) s))).
    pose proof (escapeSQL_passes_keep_nul s) as Hn. fold t in Hn.
    split.
    + intros E. inversion E as [E'].
      destruct (occurs (ascii_of_nat 0) s) eqn:O; [| reflexivity].
      exfalso.
      pose proof (proj2 (replace_char_longer (ascii_of_nat 0)
                           (ascii_of_nat 92) "0"%char t) Hn) as L.
      assert (E2 : replace_char (ascii_of_nat 0)
                     (String (ascii_of_nat 92) (String "0"%char EmptyString)) t
                   = t) by (symmetry; exact E').
      rewrite E2 in L. lia.
    + intros O. rewrite O in Hn.
      now rewrite (replace_char_absent _ _ _ Hn).
  - intros v H. destruct v; try reflexivity.
    exfalso. now apply (H s).
Qed.

(** *** UPDATE *)

Lemma existsb_eqb_In (k : string) (l : list string) :
  existsb (String.eqb k) l = true <-> In k l.
Proof.
  rewrite existsb_exists. split.
  - intros (x & Hin & E). apply String.eqb_eq in E. now subst.
  - intros H. exists k. split; [exact H | apply String.eqb_refl].
Qed.

Lemma is_not_string_iff (v : value) (s : string) :
  is_not_string v s = true <-> v <> VStr s.
Proof.
  unfold is_not_string, is_string.
  destruct v; simpl; try (split; [discriminate | reflexivity]).
  rewrite negb_true_iff. split.
  - intros E H. inversion H. subst. rewrite String.eqb_refl in E. discriminate.
  - intros H. apply String.eqb_neq. intros ->. now apply H.
Qed.

Lemma is_present_iff (v : value) :
  is_present v = true <-> v <> VUndefined /\ v <> VNull.
Proof.
  destruct v; simpl; split; try (intros; split; discriminate);
    try reflexivity; try discriminate; intros [H1 H2]; congruence.
Qed.

Lemma updatable_settable (datum : value) (properties : obj) (k : string) :
  updatable datum properties k = true <-> settable datum properties k.
Proof.
  unfold updatable, settable.
  rewrite !andb_true_iff, negb_true_iff, is_present_iff,
    !is_not_string_iff, existsb_eqb_In.
  tauto.
Qed.

(** X4.  For a row object [buildUpdateQuery] returns [null] exactly when
    the row has no key that at once does not start with an underscore, has
    a value other than [undefined], [null], ["undefined"] and ["null"], and
    is a key of the property map. *)
Theorem buildUpdateQuery_null_iff :
  forall (table : value) (datum properties : obj) (id key all : value),
    buildUpdateQuery table (VObj datum) properties id key all = Ok None
    <-> ~ exists k, In k (keys (VObj datum))
                    /\ settable (VObj datum) properties k.
Proof.
  intros table datum properties id key all.
  unfold buildUpdateQuery. rewrite length_map.
  destruct (length (update_elements (VObj datum) properties) =? 0)%nat eqn:E.
  - apply length_eqb_0 in E. unfold update_elements in E.
    rewrite filter_nil_iff in E.
    split; [intros _ | reflexivity].
    intros (k & Hin & Hk). apply updatable_settable in Hk.
    rewrite (E k Hin) in Hk. discriminate.
  - split; [discriminate |].
    intros H. exfalso.
    assert (Hnil : update_elements (VObj datum) properties = []).
    { unfold update_elements. apply filter_nil_iff. intros k Hin.
      destruct (updatable (VObj datum) properties k) eqn:Hk; [| reflexivity].
      exfalso. apply H. exists k. split; [exact Hin |].
      now apply updatable_settable. }
    rewrite Hnil in E. discriminate.
Qed.



(** *** SELECT *)

Lemma no_time_columns (properties : obj) :
  (forall column, In column (keys (VObj properties)) ->
                  is_time_column properties column = false) ->
  filter (is_time_column properties) (keys (VObj properties)) = [].
Proof. intros H. now apply filter_nil_iff. Qed.

Lemma round_double_safe (z : Z) :
  safe_integer z = true -> round_double z = z.
Proof. unfold safe_integer, round_double. now intros ->. Qed.

(** X6.  A SELECT built with the result of [buildPaginationQuery] as its
    options, on a property map without date or datetime columns, for a
    page and a page size whose product [(page - 1) * pageSize] stays below
    2^53 in magnitude, as they do themselves, so that the arithmetic of
    doubles is exact, and for a table, key and id that print: the limit is
    the page size and the offset is [(page - 1) * pageSize]; the OFFSET
    clause comes before the LIMIT clause, and a clause whose number is 0 is
    left out, so the first page has no OFFSET clause. *)
Theorem buildSelectQuery_paginated :
  forall (globalThis : obj) (table : value) (properties : obj)
         (id key all : value) (page pageSize : Z),
    (forall column, In column (keys (VObj properties)) ->
                    is_time_column properties column = false) ->
    safe_integer (page - 1) = true ->
    safe_integer pageSize = true ->
    safe_integer ((page - 1) * pageSize) = true ->
    printable table = true ->
    printable key = true ->
    printable id = true ->
    buildSelectQuery globalThis table properties id key all
      (VObj (buildPaginationQuery (Some page) (Some pageSize)))
    = Ok ("SELECT * FROM " ++ to_string table
            ++ (if truthy all then ""
                else " WHERE " ++ to_string key ++ " = "
                       ++ dq ++ to_string id ++ dq)
            ++ (if ((page - 1) * pageSize =? 0)%Z then ""
                else " OFFSET " ++ string_of_Z ((page - 1) * pageSize))
            ++ (if (pageSize =? 0)%Z then ""
                else " LIMIT " ++ string_of_Z pageSize)
            ++ ";").
Proof.
  intros globalThis table properties id key all page pageSize H
    Hpage Hsize Hoffset _ _ _.
  unfold buildSelectQuery, buildPaginationQuery.
  rewrite (round_double_safe _ Hpage), (round_double_safe _ Hoffset).
  cbn [require_object_coercible rbind].
  rewrite (no_time_columns _ H).
  cbn [map_result rbind join String.concat].
  unfold where_statement, clause.
  cbn [get lookup String.eqb Ascii.eqb Bool.eqb inherited object_prototype
         native_function fst snd truthy to_string append].
  destruct ((page - 1) * pageSize =? 0)%Z, (pageSize =? 0)%Z;
    reflexivity.
Qed.

Lemma buildSelectQuery_paginated_witness :
  buildSelectQuery [] (VStr "users") [("id", VStr "int")] (VNum 1) (VStr "id")
    (VBool true) (VObj (buildPaginationQuery (Some 3%Z) (Some 20%Z)))
  = Ok "SELECT * FROM users OFFSET 40 LIMIT 20;".
Proof.
  refine (buildSelectQuery_paginated [] (VStr "users") [("id", VStr "int")]
            (VNum 1) (VStr "id") (VBool true) 3%Z 20%Z
            _ eq_refl eq_refl eq_refl eq_refl eq_refl eq_refl).
  intros column [<- | []]. reflexivity.
Defined.

(** X7.  When the options hold a truthy [where], the statement does not
    depend on [id], [key] and [all]; and on a property map without date or
    datetime columns it is [SELECT * FROM <table>] followed at once by the
    conditions, each a key of [where] and its value, joined by [AND], with
    no [WHERE] keyword before them. *)
Theorem buildSelectQuery_where_replaces_the_filter :
  forall (globalThis : obj) (table : value) (properties : obj)
         (id key all : value) (args : obj),
    truthy (get (VObj args) "where") = true ->
    (forall id' key' all' : value,
        buildSelectQuery globalThis table properties id key all (VObj args)
        = buildSelectQuery globalThis table properties id' key' all'
            (VObj args))
    /\ ((forall column, In column (keys (VObj properties)) ->
                        is_time_column properties column = false) ->
        buildSelectQuery globalThis table properties id key all (VObj args)
        = Ok ("SELECT * FROM " ++ to_string table
                ++ join " AND "
                     (map (fun x =>
                             x ++ " "
                               ++ to_string (get (get (VObj args) "where") x))
                        (keys (get (VObj args) "where")))
                ++ clause " ORDER BY " (get (VObj args) "orderBy")
                ++ clause " GROUP BY " (get (VObj args) "groupBy")
                ++ clause " OFFSET " (get (VObj args) "offset")
                ++ clause " LIMIT " (get (VObj args) "limit")
                ++ ";")).
Proof.
  intros globalThis table properties id key all args Hw.
  unfold buildSelectQuery, where_statement.
  cbn [require_object_coercible rbind]. rewrite Hw.
  split; [reflexivity |].
  intros H. rewrite (no_time_columns _ H). reflexivity.
Qed.

Lemma buildSelectQuery_where_replaces_the_filter_witness :
  buildSelectQuery [] (VStr "users") [("id", VStr "int")] (VNum 1) (VStr "id")
    (VBool false)
    (VObj [("where", VObj [("age", VStr "> 30"); ("name", VStr "IS NOT NULL")])])
  = Ok "SELECT * FROM usersage > 30 AND name IS NOT NULL;".
Proof.
  refine (proj2 (buildSelectQuery_where_replaces_the_filter [] (VStr "users")
                   [("id", VStr "int")] (VNum 1) (VStr "id") (VBool false)
                   [("where",
                     VObj [("age", VStr "> 30"); ("name", VStr "IS NOT NULL")])]
                   eq_refl) _).
  intros column [<- | []]. reflexivity.
Defined.

(* ===================================================================== *)
(** ** Further properties of the executor *)
(* ===================================================================== *)

Section MoreExecutorFacts.

Variable env : obj.
Variable DB : Type.
Variable driver_query : string -> DB -> (value * value + exn) * DB.

Lemma queryPromise_failure (str : string) (w : World DB) (error : exn)
    (db' : DB) :
  driver_query str (server w) = (inr error, db') ->
  queryPromise env DB driver_query str w
  = (Throw error, mkWorld (pools w ++ [new_pool env])%list db').
Proof.
  intros H.
  unfold queryPromise, bind, createPool, pool_query.
  cbn [server pools]. now rewrite H.
Qed.

(** X8.  Whatever the statement and however it ends, [queryPromise] leaves
    the pools that were there as they were and adds exactly one, made for
    this call with a connection limit of 32; that pool is ended exactly
    when the call returned rows. *)
Theorem queryPromise_adds_one_pool :
  forall (str : string) (w : World DB),
    exists p : pool,
      pools (snd (queryPromise env DB driver_query str w))
      = (pools w ++ [p])%list
      /\ connectionLimit p = 32%Z
      /\ (ended p = true
          <-> exists rows,
                fst (queryPromise env DB driver_query str w) = Ok rows).
Proof.
  intros str w.
  destruct (driver_query str (server w)) as [[[rows fields]|error] db'] eqn:E.
  - destruct (queryPromise_success_ends_pool env DB driver_query str w
                rows fields db' E) as [-> _].
    exists (end_pool (new_pool env)). cbn [fst snd pools].
    split; [reflexivity |]. split; [reflexivity |].
    split; [intros _; now exists rows | reflexivity].
  - rewrite (queryPromise_failure str w error db' E).
    exists (new_pool env). cbn [fst snd pools].
    split; [reflexivity |]. split; [reflexivity |].
    split; [discriminate | intros [rows H]; discriminate].
Qed.

Lemma queryPromise_throw_open (str : string) (w w' : World DB) (e : exn) :
  queryPromise env DB driver_query str w = (Throw e, w') ->
  pools w' = (pools w ++ [new_pool env])%list.
Proof.
  intros H.
  destruct (driver_query str (server w)) as [[[rows fields]|error] db'] eqn:E.
  - destruct (queryPromise_success_ends_pool env DB driver_query str w
                rows fields db' E) as [H' _].
    rewrite H' in H. discriminate.
  - rewrite (queryPromise_failure str w error db' E) in H.
    inversion H. reflexivity.
Qed.

Lemma failed_attempts_pools :
  forall (n : nat) (query : string) (w w' : World DB) (es : list exn),
    failed_attempts env DB driver_query n query w = Some (es, w') ->
    pools w' = (pools w ++ repeat (new_pool env) n)%list.
Proof.
  induction n as [|n IH]; intros query w w' es H.
  - cbn in H. inversion H; subst. cbn [repeat]. now rewrite app_nil_r.
  - rewrite failed_attempts_S in H.
    destruct (queryPromise env DB driver_query query w)
      as [[rows|e|] w1] eqn:E1; try discriminate.
    destruct (failed_attempts env DB driver_query n query w1)
      as [[es1 w2]|] eqn:E2; try discriminate.
    inversion H; subst.
    rewrite (IH _ _ _ _ E2), (queryPromise_throw_open _ _ _ _ E1).
    rewrite <- app_assoc. reflexivity.
Qed.

Lemma open_pools_repeat (w w' : World DB) (n : nat) :
  pools w' = (pools w ++ repeat (new_pool env) n)%list ->
  open_pools DB w' = open_pools DB w + n.
Proof.
  intros H. unfold open_pools. rewrite H, filter_open_app. f_equal.
  clear H. induction n as [|n IH]; [reflexivity |].
  cbn [repeat filter]. change (ended (new_pool env)) with false.
  cbn [negb length]. now rewrite IH.
Qed.

(** X9.  Attempts that fail pile up pools: after [n] failed attempts in a
    row there are [n] more pools, none of them ended.  So when
    [executeQueryWithRetry] gives up after [retries] attempts it leaves
    [retries] more open pools behind. *)
Theorem failed_attempts_leave_pools_open :
  forall (query : string) (retries : Z) (w w' : World DB) (es : list exn),
    (1 <= retries)%Z ->
    failed_attempts env DB driver_query (Z.to_nat retries) query w
    = Some (es, w') ->
    pools w' = (pools w ++ repeat (new_pool env) (Z.to_nat retries))%list
    /\ open_pools DB w' = open_pools DB w + Z.to_nat retries
    /\ snd (executeQueryWithRetry env DB driver_query query (Some retries) w)
       = w'.
Proof.
  intros query retries w w' es Hpos H.
  pose proof (failed_attempts_pools _ _ _ _ _ H) as Hp.
  split; [exact Hp |]. split; [now apply open_pools_repeat |].
  pose proof (failed_attempts_length env DB driver_query _ _ _ _ _ H) as Hlen.
  destruct (exists_last (l := es)) as (es' & e & ->).
  { intros ->. simpl in Hlen. lia. }
  unfold executeQueryWithRetry.
  destruct (Z.to_nat retries) as [|k] eqn:Hk; [lia |].
  rewrite (retry_loop_exhausted env DB driver_query k (S k) query retries 0%Z
             w w' es' e); try assumption; try lia.
  reflexivity.
Qed.

(** *** Loading the property map *)

Lemma or_else_truthy (a b : value) :
  truthy b = true -> truthy (or_else a b) = true.
Proof.
  intros H. unfold or_else. destruct (truthy a) eqn:E; assumption.
Qed.

Lemma find_last (A : Type) (f : A -> bool) (l : list A) (x : A) :
  find f (l ++ [x])%list
  = match find f l with
    | Some y => Some y
    | None => if f x then Some x else None
    end.
Proof.
  induction l as [|a l IH]; simpl.
  - reflexivity.
  - destruct (f a); [reflexivity | exact IH].
Qed.

Lemma find_rev_existsb (A : Type) (f : A -> bool) (l : list A) :
  existsb f l = match find f (rev l) with Some _ => true | None => false end.
Proof.
  induction l as [|a l IH]; simpl.
  - reflexivity.
  - rewrite find_last, IH.
    destruct (find f (rev l)); [now rewrite orb_true_r |].
    rewrite orb_false_r. now destruct (f a).
Qed.

(** The rows of a schema go into the property map one by one; the last
    row of a name decides its entry. *)
Lemma add_columns_lookup :
  forall (columns : list value) (properties : obj),
    Forall (fun c => column_row c = true) columns ->
    exists p' : obj,
      add_columns properties columns = Ok p'
      /\ forall k : string,
           lookup k p'
           = match find (fun c => to_string (get c "COLUMN_NAME") =? k)
                     (rev columns) with
             | Some c => Some (or_else (get c "DATA_TYPE") (VStr "undefined"))
             | None => lookup k properties
             end.
Proof.
  induction columns as [|c cs IH]; intros properties Hrows.
  - exists properties. split; reflexivity.
  - inversion Hrows as [|c' cs' Hc Hcs]; subst.
    cbn [add_columns].
    assert (E : add_column properties c
                = Ok (set_prop (to_string (get c "COLUMN_NAME"))
                        (or_else (get c "DATA_TYPE") (VStr "undefined"))
                        properties)).
    { unfold add_column. unfold column_row in Hc.
      destruct c; try discriminate; reflexivity. }
    rewrite E. cbn [rbind].
    destruct (IH (set_prop (to_string (get c "COLUMN_NAME"))
                    (or_else (get c "DATA_TYPE") (VStr "undefined"))
                    properties) Hcs) as (p' & Hp & Hk).
    exists p'. split; [exact Hp |].
    intros k. rewrite Hk. cbn [rev]. rewrite find_last.
    destruct (find (fun c0 => to_string (get c0 "COLUMN_NAME") =? k) (rev cs));
      [reflexivity |].
    rewrite lookup_set_prop.
    destruct (to_string (get c "COLUMN_NAME") =? k); reflexivity.
Qed.

(** X10.  [getPropertiesFromDB] reports every failure the same way: when
    the statement is rejected, and whenever else the call throws, what it
    throws is an [Error] with the message
    [Failed to load properties from table: <table>]; the error of the
    driver is not passed on. *)
Theorem getPropertiesFromDB_wraps_every_failure :
  forall (table : value) (w : World DB),
    (forall (error : exn) (db' : DB),
        driver_query (getPropertiesFromDB_query env table) (server w)
        = (inr error, db') ->
        fst (getPropertiesFromDB env DB driver_query table w)
        = Throw (Error ("Failed to load properties from table: "
                          ++ to_string table)))
    /\ (forall e : exn,
          fst (getPropertiesFromDB env DB driver_query table w) = Throw e ->
          e = Error ("Failed to load properties from table: "
                       ++ to_string table))
    /\ fst (getPropertiesFromDB env DB driver_query table w) <> OutOfFuel.
Proof.
  intros table w.
  unfold getPropertiesFromDB, try_catch, bind, lift_result, throw.
  split; [| split].
  - intros error db' H.
    rewrite (queryPromise_failure _ w error db' H). reflexivity.
  - intros e.
    destruct (queryPromise env DB driver_query
                (getPropertiesFromDB_query env table) w)
      as [[response|e1|] w1] eqn:E.
    + destruct (collect_properties response); cbn [fst];
        intros H; inversion H; reflexivity.
    + cbn [fst]. intros H. now inversion H.
    + discriminate.
  - destruct (queryPromise env DB driver_query
                (getPropertiesFromDB_query env table) w)
      as [[response|e1|] w1] eqn:E.
    + destruct (collect_properties response) eqn:C; cbn [fst];
        try discriminate.
      exfalso. unfold collect_properties in C.
      destruct response; try discriminate.
      assert (Hc : forall cs p, add_columns p cs <> OutOfFuel).
      { induction cs as [|c cs IHc]; intros p; cbn [add_columns].
        - discriminate.
        - unfold add_column.
          destruct c; cbn [require_object_coercible rbind];
            try discriminate; apply IHc. }
      now apply (Hc l []).
    + cbn [fst]. discriminate.
    + exfalso.
      apply (queryPromise_completes env DB driver_query
               (getPropertiesFromDB_query env table) w).
      now rewrite E.
Qed.

(** X11.  When the statement returns rows whose [COLUMN_NAME] is a string
    other than [__proto__], [getPropertiesFromDB] returns a property map
    whose keys are exactly those names, and whose entry under a name is the
    [DATA_TYPE] of the last row of that name, or the text ["undefined"] in
    place of a falsy one; so every entry is truthy. *)
Theorem getPropertiesFromDB_entries :
  forall (table : value) (w w' : World DB) (columns : list value),
    queryPromise env DB driver_query (getPropertiesFromDB_query env table) w
    = (Ok (VArr columns), w') ->
    Forall (fun c => column_row c = true) columns ->
    exists properties : obj,
      getPropertiesFromDB env DB driver_query table w = (Ok properties, w')
      /\ (forall k : string,
            lookup k properties
            = match find (fun c => to_string (get c "COLUMN_NAME") =? k)
                      (rev columns) with
              | Some c =>
                  Some (or_else (get c "DATA_TYPE") (VStr "undefined"))
              | None => None
              end)
      /\ (forall k : string,
            has_own k properties
            = existsb (fun c => to_string (get c "COLUMN_NAME") =? k)
                columns)
      /\ (forall (k : string) (v : value),
            lookup k properties = Some v -> truthy v = true).
Proof.
  intros table w w' columns Hq Hrows.
  destruct (add_columns_lookup columns [] Hrows) as (p & Hp & Hk).
  exists p. split; [| split; [exact Hk | split]].
  - unfold getPropertiesFromDB, try_catch, bind, lift_result, throw.
    rewrite Hq. cbn [fst snd collect_properties]. rewrite Hp. reflexivity.
  - intros k. unfold has_own. rewrite Hk, find_rev_existsb.
    now destruct (find (fun c => to_string (get c "COLUMN_NAME") =? k)
                    (rev columns)).
  - intros k v. rewrite Hk.
    destruct (find (fun c => to_string (get c "COLUMN_NAME") =? k)
                (rev columns)); [| discriminate].
    intros H. inversion H. now apply or_else_truthy.
Qed.

End MoreExecutorFacts.

Lemma failed_attempts_leave_pools_open_witness :
  open_pools Scripted.DB
    (snd (executeQueryWithRetry [] Scripted.DB Scripted.driver_query
            "SELECT 1" (Some 3%Z)
            (Scripted.start [Scripted.failure "busy"; Scripted.failure "busy";
                             Scripted.failure "gone"])))
  = 3.
Proof.
  refine (match failed_attempts_leave_pools_open [] Scripted.DB
                  Scripted.driver_query "SELECT 1" 3%Z
                  (Scripted.start
                     [Scripted.failure "busy"; Scripted.failure "busy";
                      Scripted.failure "gone"]) _ _ _ _
          with conj _ (conj Hopen Hsnd) => _ end).
  - discriminate.
  - lazy; reflexivity.
  - rewrite Hsnd. exact Hopen.
Defined.

Lemma getPropertiesFromDB_wraps_every_failure_witness :
  fst (getPropertiesFromDB [] Scripted.DB Scripted.driver_query (VStr "widgets")
         (Scripted.start [Scripted.failure "Access denied"]))
  = Throw (Error "Failed to load properties from table: widgets").
Proof.
  exact (proj1 (getPropertiesFromDB_wraps_every_failure [] Scripted.DB
                  Scripted.driver_query (VStr "widgets")
                  (Scripted.start [Scripted.failure "Access denied"]))
           _ _ eq_refl).
Defined.

Lemma getPropertiesFromDB_entries_witness :
  exists (properties : obj) (w' : World Scripted.DB),
    getPropertiesFromDB [] Scripted.DB Scripted.driver_query (VStr "widgets")
      (Scripted.start [widgets_columns])
    = (Ok properties, w')
    /\ lookup "name" properties = Some (VStr "varchar")
    /\ lookup "colour" properties = None.
Proof.
  refine (match getPropertiesFromDB_entries [] Scripted.DB
                  Scripted.driver_query (VStr "widgets")
                  (Scripted.start [widgets_columns]) _
                  [VObj [("DATA_TYPE", VStr "varchar");
                         ("COLUMN_NAME", VStr "guid")];
                   VObj [("DATA_TYPE", VStr "varchar");
                         ("COLUMN_NAME", VStr "name")]] _ _
          with
          | ex_intro _ properties (conj Hrun (conj Hentries _)) => _
          end).
  - lazy; reflexivity.
  - repeat constructor.
  - exists properties. eexists. split; [exact Hrun |].
    split; [exact (Hentries "name") | exact (Hentries "colour")].
Defined.

(* ===================================================================== *)
(** ** Further properties of [SQLObject] *)
(* ===================================================================== *)

(** X12.  The constructor assigns [datum] after [data], and an omitted
    [datum] defaults to an empty object: an instance constructed with rows
    in [data] and no [datum] has those rows as [data], and an empty object,
    not the first row, as [datum]. *)
Theorem new_SQLObject_datum_default :
  forall (args : obj) (rows : list value),
    get (VObj args) "datum" = VUndefined ->
    get (VObj args) "data" = VArr rows ->
    exists o : SQLObject,
      new_SQLObject (VObj args) = Ok o
      /\ get_data o = VArr rows
      /\ get_datum o = VObj [].
Proof.
  intros args rows Hdatum Hdata.
  unfold new_SQLObject.
  cbn [default_to require_object_coercible rbind].
  rewrite Hdatum, Hdata. cbn [default_to].
  eexists. split; [reflexivity |]. split; reflexivity.
Qed.

Lemma new_SQLObject_datum_default_witness :
  exists o : SQLObject,
    new_SQLObject
      (VObj [("table", VStr "widgets");
             ("data", VArr [VObj [("guid", VStr "g1"); ("name", VStr "a")]])])
    = Ok o
    /\ get_data o = VArr [VObj [("guid", VStr "g1"); ("name", VStr "a")]]
    /\ get_datum o = VObj [].
Proof.
  exact (new_SQLObject_datum_default
           [("table", VStr "widgets");
            ("data", VArr [VObj [("guid", VStr "g1"); ("name", VStr "a")]])]
           [VObj [("guid", VStr "g1"); ("name", VStr "a")]] eq_refl eq_refl).
Defined.

Lemma buildUpdateQuery_truthy (table datum : value) (properties : obj)
    (id key all : value) (query : string) :
  buildUpdateQuery table datum properties id key all = Ok (Some query) ->
  truthy (VStr query) = true.
Proof.
  unfold buildUpdateQuery.
  destruct datum; try discriminate;
    destruct (length _ =? 0)%nat; try discriminate;
    intros H; inversion H; reflexivity.
Qed.


Section MoreMethodFacts.

Variable globalThis : obj.
Variable env : obj.
Variable DB : Type.
Variable driver_query : string -> DB -> (value * value + exn) * DB.

Lemma queryPromise_pool_count (str : string) (w : World DB) :
  length (pools (snd (queryPromise env DB driver_query str w)))
  = S (length (pools w)).
Proof.
  unfold queryPromise, bind, createPool, pool_query, pool_end, modify, ret.
  cbn [server pools].
  destruct (driver_query str (server w)) as [[[rows fields]|e] db'];
    cbn [snd pools server].
  - rewrite end_nth_last, !length_app. simpl. lia.
  - rewrite !length_app. simpl. lia.
Qed.

Lemma getPropertiesFromDB_pool_count (table : value) (w : World DB) :
  length (pools (snd (getPropertiesFromDB env DB driver_query table w)))
  = S (length (pools w)).
Proof.
  pose proof (queryPromise_pool_count (getPropertiesFromDB_query env table) w)
    as H.
  unfold getPropertiesFromDB, try_catch, bind, lift_result, throw.
  destruct (queryPromise env DB driver_query
              (getPropertiesFromDB_query env table) w)
    as [[response|e|] w1]; cbn [snd] in *; try exact H.
  destruct (collect_properties response); exact H.
Qed.

(** X13.  Loading the property map never marks the instance initialized.
    An instance whose [initialized] was not set by hand runs the
    information-schema statement again at the start of every method call,
    on a new pool each time; one that was marked is left alone. *)
Theorem ensure_initialized_keeps_the_flag :
  forall (o o1 : SQLObject) (w w1 : World DB) (r : result value),
    ensure_initialized env DB driver_query (o, w) = (r, (o1, w1)) ->
    _initialized o1 = _initialized o
    /\ (_initialized o = false ->
        length (pools w1) = S (length (pools w)))
    /\ (_initialized o = true -> o1 = o /\ w1 = w).
Proof.
  intros o o1 w w1 r.
  unfold ensure_initialized, initialize, bind, this, await, assign, modify,
    ret.
  cbn [fst snd]. unfold get_initialized.
  destruct (_initialized o) eqn:Hi; cbn [negb fst snd].
  - intros H. inversion H; subst.
    split; [exact Hi |]. split; [discriminate | now split].
  - rewrite Hi. cbn [fst snd].
    pose proof (getPropertiesFromDB_pool_count (get_table o) w) as Hp.
    destruct (getPropertiesFromDB env DB driver_query (get_table o) w)
      as [[p|e|] w'] eqn:E; cbn [fst snd] in *;
      intros H; inversion H; subst;
      (split; [exact Hi |]; split; [intros _; exact Hp | discriminate]).
Qed.

(** *** [update] *)

Lemma update_unfold (datum : value) (o o2 : SQLObject) (w w2 : World DB) :
  update_ready globalThis env DB driver_query o w o2 w2 ->
  SqlObjectUpdate.update globalThis env DB driver_query datum (o, w)
  = update_after_read env DB driver_query datum (o2, w2).
Proof.
  intros (v0 & o1 & w1 & Hinit & Hread).
  unfold SqlObjectUpdate.update.
  rewrite (bind_ok _ _ _ _ _ Hinit).
  unfold bind at 1. unfold this at 1. cbn [fst snd].
  destruct (_read o1); cbn [negb].
  - inversion Hread; subst. reflexivity.
  - destruct Hread as [v Hread].
    rewrite (bind_ok _ _ _ _ _ Hread). reflexivity.
Qed.

(** X14.  Once it has loaded the property map and read the instance,
    [update] returns 0 and leaves the instance as the read left it in three
    cases: its argument is falsy, the argument has no column to set, or the
    UPDATE is rejected.  In the first two no UPDATE is sent. *)
Theorem update_returns_zero :
  forall (datum : value) (o o2 : SQLObject) (w w2 : World DB),
    update_ready globalThis env DB driver_query o w o2 w2 ->
    (truthy datum = false ->
     SqlObjectUpdate.update globalThis env DB driver_query datum (o, w)
     = (Ok (VNum 0), (o2, w2)))
    /\ (truthy datum = true ->
        buildUpdateQuery (get_table o2) datum (get_properties o2) (get_id o2)
          (get_key o2) (all o2) = Ok None ->
        SqlObjectUpdate.update globalThis env DB driver_query datum (o, w)
        = (Ok (VNum 0), (o2, w2)))
    /\ (forall (query : string) (error : exn) (w3 : World DB),
          truthy datum = true ->
          buildUpdateQuery (get_table o2) datum (get_properties o2)
            (get_id o2) (get_key o2) (all o2) = Ok (Some query) ->
          queryPromise env DB driver_query query w2 = (Throw error, w3) ->
          SqlObjectUpdate.update globalThis env DB driver_query datum (o, w)
          = (Ok (VNum 0), (o2, w3))).
Proof.
  intros datum o o2 w w2 Hready.
  rewrite (update_unfold datum o o2 w w2 Hready).
  unfold update_after_read.
  split; [| split].
  - intros ->. reflexivity.
  - intros -> Hq. cbn [negb].
    unfold bind, this, lift_result, ret. cbn [fst snd]. rewrite Hq.
    reflexivity.
  - intros query error w3 -> Hq Hrun. cbn [negb].
    pose proof (buildUpdateQuery_truthy _ _ _ _ _ _ _ Hq) as Ht.
    unfold bind, this, lift_result, ret, try_catch, await.
    cbn [fst snd]. rewrite Hq, Ht. cbn [negb fst snd]. rewrite Hrun.
    reflexivity.
Qed.


(** *** [readOrCreate] *)

(** X16.  [readOrCreate] creates nothing when its read finds rows, which
    it returns, or throws, which it passes on.  When the read finds
    nothing it calls [create] and reads again, whatever [create] returned:
    a [create] that reports failure with 0 or [undefined] is followed by
    the second read all the same. *)
Theorem readOrCreate_cases :
  forall (datum : value) (s : St DB),
    (forall (rows : value) (s' : St DB),
        read globalThis env DB driver_query VUndefined s = (Ok rows, s') ->
        truthy rows = true ->
        SqlObjectUpdate.readOrCreate globalThis env DB driver_query datum s
        = (Ok rows, s'))
    /\ (forall (e : exn) (s' : St DB),
          read globalThis env DB driver_query VUndefined s = (Throw e, s') ->
          SqlObjectUpdate.readOrCreate globalThis env DB driver_query datum s
          = (Throw e, s'))
    /\ (forall (found created : value) (s1 s2 : St DB),
          read globalThis env DB driver_query VUndefined s = (Ok found, s1) ->
          truthy found = false ->
          create globalThis env DB driver_query datum s1 = (Ok created, s2) ->
          SqlObjectUpdate.readOrCreate globalThis env DB driver_query datum s
          = read globalThis env DB driver_query VUndefined s2).
Proof.
  intros datum s. unfold SqlObjectUpdate.readOrCreate.
  split; [| split].
  - intros rows s' H Ht. rewrite (bind_ok _ _ _ _ _ H), Ht. reflexivity.
  - intros e s' H. now rewrite (bind_throw _ _ _ _ _ H).
  - intros found created s1 s2 H Hf Hc.
    rewrite (bind_ok _ _ _ _ _ H), Hf. cbn [negb].
    now rewrite (bind_ok _ _ _ _ _ Hc).
Qed.

End MoreMethodFacts.
Lemma ensure_initialized_keeps_the_flag_witness :
  _initialized
    (fst (snd (ensure_initialized [] Scripted.DB Scripted.driver_query
                 (widgets, Scripted.start [widgets_columns]))))
  = false
  /\ length
       (pools (snd (snd (ensure_initialized [] Scripted.DB
                           Scripted.driver_query
                           (widgets, Scripted.start [widgets_columns])))))
     = 1.
Proof.
  destruct (ensure_initialized [] Scripted.DB Scripted.driver_query
              (widgets, Scripted.start [widgets_columns]))
    as [r [o1 w1]] eqn:E.
  destruct (ensure_initialized_keeps_the_flag [] Scripted.DB
              Scripted.driver_query widgets o1
              (Scripted.start [widgets_columns]) w1 r E)
    as (Hflag & Hpools & _).
  cbn [fst snd]. split; [exact Hflag | exact (Hpools eq_refl)].
Defined.
Lemma widgets_update_ready (answers : list (value * value + exn)) :
  update_ready [] [] Scripted.DB Scripted.driver_query widgets
    (Scripted.start
       (widgets_columns :: widgets_columns :: Scripted.rows [widget_row]
          :: answers))
    (fst (widgets_read answers)) (snd (widgets_read answers)).
Proof.
  unfold update_ready.
  do 3 eexists. split; [lazy; reflexivity |].
  cbn [_read set_properties widgets set_all set_id set_key set_datum
         set_data assign_data set_table blank].
  eexists. lazy. reflexivity.
Defined.
Lemma update_returns_zero_witness :
  SqlObjectUpdate.update [] [] Scripted.DB Scripted.driver_query VUndefined
    (widgets,
     Scripted.start
       [widgets_columns; widgets_columns; Scripted.rows [widget_row]])
  = (Ok (VNum 0), (fst (widgets_read []), snd (widgets_read [])))
  /\ get_datum (fst (widgets_read [])) = VObj widget_row.
Proof.
  split; [| reflexivity].
  exact (proj1 (update_returns_zero [] [] Scripted.DB Scripted.driver_query
                  VUndefined widgets (fst (widgets_read [])) _
                  (snd (widgets_read [])) (widgets_update_ready []))
           eq_refl).
Defined.
Lemma readOrCreate_cases_witness :
  exists s' : St Scripted.DB,
    SqlObjectUpdate.readOrCreate [] [] Scripted.DB Scripted.driver_query
      (VObj [("name", VStr "a")])
      (widgets,
       Scripted.start [widgets_columns; Scripted.rows [widget_row]])
    = (Ok (VArr [VObj widget_row]), s').
Proof.
  eexists.
  refine (proj1 (readOrCreate_cases [] [] Scripted.DB Scripted.driver_query
                   (VObj [("name", VStr "a")])
                   (widgets,
                    Scripted.start
                      [widgets_columns; Scripted.rows [widget_row]]))
            (VArr [VObj widget_row]) _ _ eq_refl).
  lazy; reflexivity.
Defined.

(** *** Date columns and the re-read in [create] *)

Lemma select_time_column_throws (globalThis : obj) (table : value)
    (properties : obj) (id key all : value) (args : obj) (column : string) :
  lookup "date_format" globalThis = None ->
  lookup "datetime_format" globalThis = None ->
  In column (keys (VObj properties)) ->
  is_time_column properties column = true ->
  exists name,
    (name = "date_format" \/ name = "datetime_format")
    /\ buildSelectQuery globalThis table properties id key all (VObj args)
       = Throw (ReferenceError (name ++ " is not defined")).
Proof.
  intros Hd Hdt Hin Ht. unfold buildSelectQuery.
  cbn [require_object_coercible rbind].
  destruct (filter (is_time_column properties) (keys (VObj properties)))
    as [|c cs] eqn:E.
  - rewrite filter_nil_iff in E. rewrite (E column Hin) in Ht. discriminate.
  - destruct (time_projection_throws globalThis properties c Hd Hdt)
      as (name & Hname & Hthrow).
    exists name. split; [exact Hname |].
    rewrite (map_result_head_throws _ c cs _ Hthrow). reflexivity.
Qed.

Section DateColumns.

Variable globalThis : obj.
Variable env : obj.
Variable DB : Type.
Variable driver_query : string -> DB -> (value * value + exn) * DB.

(** X17.  Where nothing defines the globals [date_format] and
    [datetime_format], an instance whose table has a date or datetime
    column cannot be read: once the property map is loaded, [read] throws a
    [ReferenceError] before any SELECT is sent, with or without options,
    and leaves the rows of the instance as they were. *)
Theorem read_throws_on_time_column :
  forall (o o1 : SQLObject) (w w1 : World DB) (v0 : value) (column : string),
    lookup "date_format" globalThis = None ->
    lookup "datetime_format" globalThis = None ->
    ensure_initialized env DB driver_query (o, w) = (Ok v0, (o1, w1)) ->
    In column (keys (VObj (get_properties o1))) ->
    is_time_column (get_properties o1) column = true ->
    exists name,
      (name = "date_format" \/ name = "datetime_format")
      /\ read globalThis env DB driver_query VUndefined (o, w)
         = (Throw (ReferenceError (name ++ " is not defined")), (o1, w1))
      /\ (forall args : obj,
            read globalThis env DB driver_query (VObj args) (o, w)
            = (Throw (ReferenceError (name ++ " is not defined")), (o1, w1)))
      /\ get_data o1 = get_data o /\ get_datum o1 = get_datum o.
Proof.
  intros o o1 w w1 v0 column Hd Hdt Hinit Hin Ht.
  destruct (ensure_initialized_row _ _ _ _ _ _ _ _ Hinit) as (_ & _ & Hgd & Hgm).
  assert (H : exists name,
             (name = "date_format" \/ name = "datetime_format")
             /\ forall args : obj,
                  buildSelectQuery globalThis (get_table o1)
                    (get_properties o1) (get_id o1) (get_key o1)
                    (default_to (all o1) (VBool false)) (VObj args)
                  = Throw (ReferenceError (name ++ " is not defined"))).
  { destruct (select_time_column_throws globalThis (get_table o1)
                (get_properties o1) (get_id o1) (get_key o1)
                (default_to (all o1) (VBool false)) [] column Hd Hdt Hin Ht)
      as (name & Hname & Hthrow).
    exists name. split; [exact Hname |]. intros args.
    rewrite <- Hthrow. unfold buildSelectQuery.
    cbn [require_object_coercible rbind].
    destruct (map_result (time_projection globalThis (get_properties o1))
                (filter (is_time_column (get_properties o1))
                   (keys (VObj (get_properties o1))))) eqn:E;
      try reflexivity.
    exfalso. unfold buildSelectQuery in Hthrow.
    cbn [require_object_coercible rbind] in Hthrow. rewrite E in Hthrow.
    discriminate. }
  destruct H as (name & Hname & Hthrow).
  exists name. split; [exact Hname |].
  assert (Hread : forall args : obj,
             read globalThis env DB driver_query (VObj args) (o, w)
             = (Throw (ReferenceError (name ++ " is not defined")), (o1, w1))).
  { intros args. unfold read. cbv zeta. rewrite (bind_ok _ _ _ _ _ Hinit).
    unfold bind, this, lift_result. cbn [fst snd default_to].
    rewrite Hthrow. reflexivity. }
  split; [exact (Hread []) |]. split; [exact Hread |]. now split.
Qed.

(** X18.  When the INSERT of [create] goes through, [create] makes
    ["id"] the key of the instance, stores the [insertId] of the response
    as its id, and reads the instance again; the id it reads by is the
    [id] field it was given if that is truthy, and the [insertId]
    otherwise.  It returns the response of the INSERT whatever that read
    finds, and [undefined], as for a failed INSERT, when that read
    throws. *)
Theorem create_reads_back_by_id :
  forall (fields : obj) (o o1 : SQLObject) (w w1 w2 : World DB) (v0 : value)
         (query : string) (response : value),
    ensure_initialized env DB driver_query (o, w) = (Ok v0, (o1, w1)) ->
    let properties := get_properties o1 in
    let created := filter_fields properties (VObj fields) in
    let safe := default_to (get (VObj fields) "safe") (VBool true) in
    buildInsertQuery (get_table o1) created properties safe = Some query ->
    queryPromise env DB driver_query query w1 = (Ok response, w2) ->
    is_present response = true ->
    let o3 :=
      set_last (VStr query) response
        (set_id (get response "insertId")
           (set_key (VStr "id")
              (set_data (VArr [VObj created])
                 (set_datum (VObj created) o1)))) in
    get_key o3 = VStr "id"
    /\ get_id o3
       = or_else (get (VObj created) "id") (get response "insertId")
    /\ (forall (found : value) (s' : St DB),
          read globalThis env DB driver_query VUndefined (o3, w2)
          = (Ok found, s') ->
          create globalThis env DB driver_query (VObj fields) (o, w)
          = (Ok response, s'))
    /\ (forall (e : exn) (s' : St DB),
          read globalThis env DB driver_query VUndefined (o3, w2)
          = (Throw e, s') ->
          create globalThis env DB driver_query (VObj fields) (o, w)
          = (Ok VUndefined, s')).
Proof.
  intros fields o o1 w w1 w2 v0 query response Hinit properties created safe
    Hq Hrun Hpresent o3.
  pose proof (buildInsertQuery_truthy _ _ _ _ _ Hq) as Htruthy.
  split; [reflexivity |]. split; [reflexivity |].
  assert (Hcreate :
            create globalThis env DB driver_query (VObj fields) (o, w)
            = match read globalThis env DB driver_query VUndefined (o3, w2)
              with
              | (Ok _, s') => (Ok response, s')
              | (Throw _, s') => (Ok VUndefined, s')
              | (OutOfFuel, s') => (OutOfFuel, s')
              end).
  { unfold o3. unfold create. rewrite (bind_ok _ _ _ _ _ Hinit).
    unfold bind, this, lift_result, await, assign, modify, ret.
    cbn [fst snd require_object_coercible own_entries].
    fold properties. fold created. fold safe. rewrite Hq.
    rewrite Htruthy. cbn [negb].
    unfold try_catch. cbn [fst snd]. rewrite Hrun. cbn [fst snd].
    destruct response; try discriminate; cbn [require_object_coercible];
      cbn [fst snd];
      match goal with
      | |- context [read _ _ _ _ _ ?s] =>
          destruct (read globalThis env DB driver_query VUndefined s)
            as [[found|e|] s']; reflexivity
      end. }
  split.
  - intros found s' H. rewrite Hcreate, H. reflexivity.
  - intros e s' H. rewrite Hcreate, H. reflexivity.
Qed.

End DateColumns.

Lemma read_throws_on_time_column_witness :
  exists name,
    (name = "date_format" \/ name = "datetime_format")
    /\ fst (read [] [] Scripted.DB Scripted.driver_query VUndefined
              (set_table (VStr "events") widgets,
               Scripted.start
                 [Scripted.rows
                    [[("DATA_TYPE", VStr "int"); ("COLUMN_NAME", VStr "id")];
                     [("DATA_TYPE", VStr "date");
                      ("COLUMN_NAME", VStr "day")]]]))
       = Throw (ReferenceError (name ++ " is not defined")).
Proof.
  refine (match read_throws_on_time_column [] [] Scripted.DB
                  Scripted.driver_query (set_table (VStr "events") widgets) _
                  (Scripted.start
                     [Scripted.rows
                        [[("DATA_TYPE", VStr "int");
                          ("COLUMN_NAME", VStr "id")];
                         [("DATA_TYPE", VStr "date");
                          ("COLUMN_NAME", VStr "day")]]])
                  _ _ "day" eq_refl eq_refl _ _ _
          with ex_intro _ name (conj Hname (conj Hread _)) => _ end).
  - lazy; reflexivity.
  - right. left. reflexivity.
  - reflexivity.
  - exists name. split; [exact Hname |]. rewrite Hread. reflexivity.
Defined.

Lemma create_reads_back_by_id_witness :
  exists s' : St Scripted.DB,
    create [] [] Scripted.DB Scripted.driver_query
      (VObj [("name", VStr "a")])
      (widgets,
       Scripted.start
         [widgets_columns; Scripted.header 7; widgets_columns;
          Scripted.rows [[("id", VNum 7); ("name", VStr "a")]]])
    = (Ok (VObj [("fieldCount", VNum 0); ("affectedRows", VNum 1);
                 ("insertId", VNum 7)]), s').
Proof.
  eexists.
  refine (match create_reads_back_by_id [] [] Scripted.DB
                  Scripted.driver_query [("name", VStr "a")] widgets _
                  (Scripted.start
                     [widgets_columns; Scripted.header 7; widgets_columns;
                      Scripted.rows [[("id", VNum 7); ("name", VStr "a")]]])
                  _ _ _ _ _ _ _ _ _
          with conj _ (conj _ (conj Hfound _)) => _ end).
  - lazy; reflexivity.
  - lazy; reflexivity.
  - lazy; reflexivity.
  - reflexivity.
  - refine (Hfound _ _ _). lazy; reflexivity.
Defined.

(* ===================================================================== *)
(** ** Further properties of the schema helpers *)
(* ===================================================================== *)

(** *** Enum declarations *)

Lemma all_chars_app (p : ascii -> bool) (a b : string) :
  all_chars p (a ++ b) = all_chars p a && all_chars p b.
Proof.
  induction a as [|c a IH]; simpl; [reflexivity |].
  now rewrite IH, andb_assoc.
Qed.

Lemma all_chars_weaken (p q : ascii -> bool) (s : string) :
  (forall c, p c = true -> q c = true) ->
  all_chars p s = true -> all_chars q s = true.
Proof.
  intros H. induction s as [|c s IH]; simpl; [reflexivity |].
  rewrite !andb_true_iff. intros [Hc Hs]. split; [now apply H | now apply IH].
Qed.

Lemma all_chars_join (p : ascii -> bool) (sep : string) (l : list string) :
  all_chars p sep = true ->
  Forall (fun s => all_chars p s = true) l ->
  all_chars p (join sep l) = true.
Proof.
  intros Hsep H. induction H as [|x l Hx Hl IH]; [reflexivity |].
  destruct l as [|y l]; [exact Hx |].
  change (join sep (x :: y :: l)) with (x ++ sep ++ join sep (y :: l)).
  now rewrite !all_chars_app, Hx, Hsep, IH.
Qed.

Lemma until_close_app (body t : string) :
  all_chars (fun c => negb (Ascii.eqb c ")"%char)
                      && negb (is_line_terminator c)) body = true ->
  until_close (body ++ String ")"%char t) = Some body.
Proof.
  induction body as [|c body IH]; simpl.
  - reflexivity.
  - rewrite !andb_true_iff, !negb_true_iff. intros [[H1 H2] H3].
    now rewrite H1, H2, (IH H3).
Qed.

Lemma prefix_app (p s : string) : prefix p (p ++ s) = true.
Proof.
  induction p as [|a p IH]; simpl.
  - destruct s; reflexivity.
  - destruct (ascii_dec a a); [exact IH | congruence].
Qed.

Lemma split_on_not_nil (c : ascii) (s : string) : split_on c s <> [].
Proof.
  destruct s as [|a s]; simpl; [discriminate |].
  destruct (split_on c s); [discriminate |].
  destruct (Ascii.eqb a c); discriminate.
Qed.

Lemma split_on_absent (c : ascii) (x : string) :
  all_chars (fun a => negb (Ascii.eqb a c)) x = true ->
  split_on c x = [x].
Proof.
  induction x as [|a x IH]; simpl; [reflexivity |].
  rewrite andb_true_iff, negb_true_iff. intros [Ha Hx].
  now rewrite (IH Hx), Ha.
Qed.

Lemma split_on_app (c : ascii) (x rest : string) :
  all_chars (fun a => negb (Ascii.eqb a c)) x = true ->
  split_on c (x ++ String c rest) = x :: split_on c rest.
Proof.
  induction x as [|a x IH]; simpl.
  - intros _. rewrite Ascii.eqb_refl.
    destruct (split_on c rest) eqn:E; [| reflexivity].
    now apply split_on_not_nil in E.
  - rewrite andb_true_iff, negb_true_iff. intros [Ha Hx].
    now rewrite (IH Hx), Ha.
Qed.

Lemma split_on_join (c : ascii) (x : string) (l : list string) :
  Forall (fun s => all_chars (fun a => negb (Ascii.eqb a c)) s = true)
    (x :: l) ->
  split_on c (join (String c EmptyString) (x :: l)) = x :: l.
Proof.
  revert x. induction l as [|y l IH]; intros x H.
  - inversion H; subst. now apply split_on_absent.
  - change (join (String c EmptyString) (x :: y :: l))
      with (x ++ String c (join (String c EmptyString) (y :: l))).
    inversion H; subst.
    rewrite split_on_app by assumption. now rewrite IH.
Qed.

Lemma replace_char_app (c : ascii) (by_ a b : string) :
  replace_char c by_ (a ++ b) = replace_char c by_ a ++ replace_char c by_ b.
Proof. rewrite !replace_char_expand. apply expand_app. Qed.

Lemma append_empty_r (s : string) : s ++ "" = s.
Proof. induction s as [|c s IH]; simpl; [reflexivity | now rewrite IH]. Qed.

Lemma all_chars_occurs (c : ascii) (s : string) :
  all_chars (fun a => negb (Ascii.eqb a c)) s = true -> occurs c s = false.
Proof.
  induction s as [|a s IH]; simpl; [reflexivity |].
  rewrite andb_true_iff, negb_true_iff. intros [Ha Hs].
  now rewrite Ha, (IH Hs).
Qed.

Lemma unquote_item (item : string) :
  all_chars plain_char item = true ->
  replace_char "'"%char "" ("'" ++ item ++ "'") = item.
Proof.
  intros H. rewrite !replace_char_app.
  rewrite (replace_char_absent "'"%char "" item).
  - cbn. apply append_empty_r.
  - apply all_chars_occurs. revert H. apply all_chars_weaken.
    intros c. unfold plain_char. rewrite !negb_true_iff, !orb_false_iff.
    tauto.
Qed.

Lemma plain_quoted (p : ascii -> bool) (item : string) :
  (forall c, plain_char c = true -> p c = true) ->
  p "'"%char = true ->
  all_chars plain_char item = true ->
  all_chars p ("'" ++ item ++ "'") = true.
Proof.
  intros Hp Hq H. rewrite !all_chars_app. cbn. rewrite Hq.
  now rewrite (all_chars_weaken plain_char p item Hp H).
Qed.

Lemma Forall_quoted (p : ascii -> bool) (items : list string) :
  (forall c, plain_char c = true -> p c = true) ->
  p "'"%char = true ->
  Forall (fun item => all_chars plain_char item = true) items ->
  Forall (fun s => all_chars p s = true)
    (map (fun item => "'" ++ item ++ "'") items).
Proof.
  intros Hp Hq H. induction H as [|x l Hx Hl IH]; cbn [map].
  - constructor.
  - constructor; [now apply plain_quoted | exact IH].
Qed.

(** X19.  [getEnumFromDB] reads back the items of an enum declaration: for
    a first row whose [COLUMN_TYPE] is [enum('a','b',...)], with at least
    one item and no comma, closing parenthesis, single quote or line
    terminator inside an item, the result is the list of the items in
    order.  A first row whose [COLUMN_TYPE] is a text that does not start
    with [enum(] gives the empty list. *)
Theorem enum_of_rows_round_trip :
  forall (first : value) (rest : list value),
    is_present first = true ->
    (forall items : list string,
        items <> [] ->
        Forall (fun item => all_chars plain_char item = true) items ->
        get first "COLUMN_TYPE" = VStr (enum_declaration items) ->
        enum_of_rows (first :: rest) = Ok items)
    /\ (forall column_type : string,
          prefix "enum(" column_type = false ->
          get first "COLUMN_TYPE" = VStr column_type ->
          enum_of_rows (first :: rest) = Ok []).
Proof.
  intros first rest Hfirst.
  assert (Hc : require_object_coercible first "COLUMN_TYPE" = Ok tt)
    by (destruct first; try discriminate; reflexivity).
  split.
  - intros items Hne Hplain Htype.
    unfold enum_of_rows. rewrite Hc. cbn [rbind]. rewrite Htype.
    destruct items as [|x l]; [congruence |].
    set (quoted_items := map (fun item => "'" ++ item ++ "'") (x :: l)).
    assert (Hbody : all_chars
                      (fun c => negb (Ascii.eqb c ")"%char)
                                && negb (is_line_terminator c))
                      (join "," quoted_items) = true).
    { apply all_chars_join; [reflexivity |].
      unfold quoted_items. apply Forall_quoted;
        [| reflexivity | exact Hplain].
      intros c. unfold plain_char.
      rewrite !negb_true_iff, !orb_false_iff, andb_true_iff, !negb_true_iff.
      tauto. }
    assert (Hgroup : first_group (enum_declaration (x :: l))
                     = Some (join "," quoted_items)).
    { unfold enum_declaration. fold quoted_items.
      cbn [append first_group Ascii.eqb Bool.eqb].
      now rewrite until_close_app. }
    assert (Hprefix : prefix "enum(" (enum_declaration (x :: l)) = true)
      by apply prefix_app.
    rewrite Hprefix, Hgroup. f_equal.
    unfold quoted_items. cbn [map].
    rewrite (split_on_join ","%char).
    + cbn [map]. rewrite unquote_item by (now inversion Hplain).
      f_equal. rewrite map_map.
      inversion Hplain as [|? ? _ Hl]; subst.
      clear -Hl. induction Hl as [|y l Hy Hl IH]; [reflexivity |].
      cbn [map]. now rewrite unquote_item, IH.
    + refine (Forall_quoted (fun a => negb (Ascii.eqb a ","%char))
                (x :: l) _ eq_refl Hplain).
      intros c. unfold plain_char.
      rewrite !negb_true_iff, !orb_false_iff. tauto.
  - intros column_type Hprefix Htype.
    unfold enum_of_rows. rewrite Hc. cbn [rbind].
    now rewrite Htype, Hprefix.
Qed.

Lemma enum_of_rows_round_trip_witness :
  enum_of_rows
    [VObj [("COLUMN_TYPE", VStr "enum('draft','in review','done')")]]
  = Ok ["draft"; "in review"; "done"].
Proof.
  refine (proj1 (enum_of_rows_round_trip
                   (VObj [("COLUMN_TYPE",
                           VStr "enum('draft','in review','done')")])
                   [] eq_refl)
            ["draft"; "in review"; "done"] _ _ eq_refl).
  - discriminate.
  - repeat constructor.
Defined.

(** *** Columns *)

Lemma fold_set_lookup (cond : string -> bool) (val : string -> value)
    (ks : list string) :
  forall (acc : obj) (k : string),
    lookup k
      (fold_left
         (fun r key => if cond key then set_prop key (val key) r else r)
         ks acc)
    = if existsb (String.eqb k) ks && cond k then Some (val k)
      else lookup k acc.
Proof.
  induction ks as [|a ks IH]; intros acc k; simpl.
  - reflexivity.
  - rewrite IH.
    destruct (existsb (String.eqb k) ks && cond k) eqn:E.
    + rewrite andb_true_iff in E. destruct E as [E1 E2].
      now rewrite E1, E2, orb_true_r.
    + destruct (String.eqb_spec k a) as [-> | Hne]; simpl.
      * destruct (cond a) eqn:T.
        -- rewrite lookup_set_prop, String.eqb_refl. reflexivity.
        -- reflexivity.
      * rewrite E.
        destruct (cond a); [| reflexivity].
        rewrite lookup_set_prop.
        destruct (String.eqb_spec a k); [congruence | reflexivity].
Qed.

Lemma fold_null_lookup (columns : list value) :
  forall (acc : obj) (k : string),
    lookup k
      (fold_left
         (fun returnObj column => set_prop (to_string column) VNull returnObj)
         columns acc)
    = if existsb (fun c => to_string c =? k) columns then Some VNull
      else lookup k acc.
Proof.
  induction columns as [|c cs IH]; intros acc k; simpl.
  - reflexivity.
  - rewrite IH, lookup_set_prop.
    destruct (existsb (fun c0 => to_string c0 =? k) cs);
      [now rewrite orb_true_r |].
    rewrite orb_false_r. reflexivity.
Qed.

Section ColumnFacts.

Variable env : obj.
Variable DB : Type.
Variable driver_query : string -> DB -> (value * value + exn) * DB.

(** X20.  For a table without a column named [__proto__],
    [filterObjectByTable] keeps, of the keys of the object, exactly those
    that [getColumnKeysFromDB] lists for the table, and gives each the
    value it has in the object, or the empty string when that value is
    falsy: no key outside the table's columns comes back, and no [null],
    0, [false] or [undefined] value. *)
Theorem filterObjectByTable_result :
  forall (fields : obj) (table : value) (w w' : World DB)
         (allowedKeys : list value),
    getColumnKeysFromDB env DB driver_query table w = (Ok allowedKeys, w') ->
    includes_string allowedKeys "__proto__" = false ->
    exists result : obj,
      filterObjectByTable env DB driver_query (VObj fields) table w
      = (Ok result, w')
      /\ (forall k : string,
            lookup k result
            = if existsb (String.eqb k) (keys (VObj fields))
                 && includes_string allowedKeys k
              then Some (or_else (get (VObj fields) k) (VStr ""))
              else None)
      /\ (forall (k : string) (v : value),
            lookup k result = Some v ->
            includes_string allowedKeys k = true
            /\ (truthy v = true \/ v = VStr "")).
Proof.
  intros fields table w w' allowedKeys H _.
  eexists. split; [| split].
  - unfold filterObjectByTable. rewrite (bind_ok _ _ _ _ _ H). reflexivity.
  - intros k.
    rewrite (fold_set_lookup (includes_string allowedKeys)
               (fun each => or_else (get (VObj fields) each) (VStr ""))).
    reflexivity.
  - intros k v.
    rewrite (fold_set_lookup (includes_string allowedKeys)
               (fun each => or_else (get (VObj fields) each) (VStr ""))).
    set (g := get (VObj fields) k).
    destruct (existsb (String.eqb k) (keys (VObj fields))); [| discriminate].
    destruct (includes_string allowedKeys k); [| discriminate].
    cbn [andb lookup]. intros Hv.
    assert (Hg : v = or_else g (VStr "")) by congruence.
    subst v. split; [reflexivity |].
    unfold or_else. destruct (truthy g) eqn:T.
    + left. exact T.
    + right. reflexivity.
Qed.

(** X21.  [getEmptyObjectFromDB] and [getColumnKeysFromDB] agree on a
    table whose column names are strings other than [__proto__]: the
    object has a key for every column name the other lists for the same
    table, no other key, and [null] under every key. *)
Theorem getEmptyObjectFromDB_result :
  forall (table : value) (w w' : World DB) (columns : list value),
    getColumnKeysFromDB env DB driver_query table w = (Ok columns, w') ->
    Forall (fun c => column_name c = true) columns ->
    exists result : obj,
      getEmptyObjectFromDB env DB driver_query table w = (Ok result, w')
      /\ forall k : string,
           lookup k result
           = if existsb (fun c => to_string c =? k) columns then Some VNull
             else None.
Proof.
  intros table w w' columns H _.
  unfold getColumnKeysFromDB, bind, lift_result in H.
  unfold getEmptyObjectFromDB, bind, lift_result, ret.
  destruct (queryPromise env DB driver_query (columns_query env table) w)
    as [[data|e|] w1]; try discriminate.
  destruct (column_names data) as [names| |]; try discriminate.
  inversion H; subst.
  eexists. split; [reflexivity |].
  intros k. now rewrite fold_null_lookup.
Qed.

End ColumnFacts.

Lemma filterObjectByTable_result_witness :
  fst (filterObjectByTable [] Scripted.DB Scripted.driver_query
         (VObj [("guid", VNum 0); ("colour", VStr "red"); ("name", VStr "a")])
         (VStr "widgets") (Scripted.start [widgets_columns]))
  = Ok [("guid", VStr ""); ("name", VStr "a")].
Proof.
  refine (match filterObjectByTable_result [] Scripted.DB
                  Scripted.driver_query
                  [("guid", VNum 0); ("colour", VStr "red");
                   ("name", VStr "a")]
                  (VStr "widgets") (Scripted.start [widgets_columns]) _
                  [VStr "guid"; VStr "name"] _ _
          with ex_intro _ result (conj Hrun _) => _ end).
  - lazy; reflexivity.
  - reflexivity.
  - reflexivity.
Defined.

Lemma getEmptyObjectFromDB_result_witness :
  fst (getEmptyObjectFromDB [] Scripted.DB Scripted.driver_query
         (VStr "widgets") (Scripted.start [widgets_columns]))
  = Ok [("guid", VNull); ("name", VNull)].
Proof.
  refine (match getEmptyObjectFromDB_result [] Scripted.DB
                  Scripted.driver_query (VStr "widgets")
                  (Scripted.start [widgets_columns]) _
                  [VStr "guid"; VStr "name"] _ _
          with ex_intro _ result (conj Hrun _) => _ end).
  - lazy; reflexivity.
  - repeat constructor.
  - reflexivity.
Defined.

(** *** [destroy] *)

Section DestroyFacts.

Variable env : obj.
Variable DB : Type.
Variable driver_query : string -> DB -> (value * value + exn) * DB.

(** X22.  [destroy] keeps the row it deletes.  Once the property map is
    loaded, with a table and an id that print, it returns 1 exactly when
    the DELETE went through, and then records the statement and the
    response as the last operation and changes nothing else; it returns 0
    exactly when the DELETE was rejected, and then leaves the instance as
    it was.  Either way [data], [datum] and [id] read as before.  When
    loading the property map throws, [destroy] throws the same error
    instead of returning 0. *)
Theorem destroy_keeps_the_row :
  forall (o : SQLObject) (w : World DB),
    (forall (v0 : value) (o1 : SQLObject) (w1 : World DB),
        ensure_initialized env DB driver_query (o, w) = (Ok v0, (o1, w1)) ->
        printable (get_table o) = true ->
        printable (get_id o) = true ->
        let query := buildDeleteQuery (get_table o) (get_id o) in
        (forall (response : value) (w2 : World DB),
            queryPromise env DB driver_query query w1 = (Ok response, w2) ->
            destroy env DB driver_query (o, w)
            = (Ok (VNum 1), (assign_last (VStr query, response) o1, w2)))
        /\ (forall (error : exn) (w2 : World DB),
              queryPromise env DB driver_query query w1 = (Throw error, w2) ->
              destroy env DB driver_query (o, w) = (Ok (VNum 0), (o1, w2)))
        /\ (exists (r : value) (o' : SQLObject) (w' : World DB),
              destroy env DB driver_query (o, w) = (Ok r, (o', w'))
              /\ (r = VNum 1 \/ r = VNum 0)
              /\ get_data o' = get_data o
              /\ get_datum o' = get_datum o
              /\ get_id o' = get_id o))
    /\ (forall (e : exn) (s' : St DB),
          ensure_initialized env DB driver_query (o, w) = (Throw e, s') ->
          destroy env DB driver_query (o, w) = (Throw e, s')).
Proof.
  intros o w. split.
  - intros v0 o1 w1 Hinit _ _ query.
    assert (Hsame : get_table o1 = get_table o /\ get_id o1 = get_id o
                    /\ get_data o1 = get_data o /\ get_datum o1 = get_datum o).
    { destruct (ensure_initialized_state _ _ _ _ _ _ _ _ Hinit)
        as [-> | [p ->]]; repeat split; reflexivity. }
    destruct Hsame as (Ht & Hi & Hd & Hm).
    assert (Hrun : destroy env DB driver_query (o, w)
                   = match queryPromise env DB driver_query query w1 with
                     | (Ok response, w2) =>
                         (Ok (VNum 1),
                          (assign_last (VStr query, response) o1, w2))
                     | (Throw _, w2) => (Ok (VNum 0), (o1, w2))
                     | (OutOfFuel, w2) => (OutOfFuel, (o1, w2))
                     end).
    { unfold destroy. rewrite (bind_ok _ _ _ _ _ Hinit).
      unfold bind, this, try_catch, await, assign, modify, ret.
      cbn [fst snd]. rewrite Ht, Hi. fold query.
      destruct (queryPromise env DB driver_query query w1)
        as [[response|e|] w2]; reflexivity. }
    split; [| split].
    + intros response w2 E. rewrite Hrun, E. reflexivity.
    + intros error w2 E. rewrite Hrun, E. reflexivity.
    + pose proof (queryPromise_completes env DB driver_query query w1) as Hc.
      rewrite Hrun.
      destruct (queryPromise env DB driver_query query w1)
        as [[response|e|] w2]; cbn [fst snd] in *.
      * do 3 eexists. split; [reflexivity |].
        split; [now left |]. repeat split; assumption.
      * do 3 eexists. split; [reflexivity |].
        split; [now right |]. repeat split; assumption.
      * congruence.
  - intros e s' H. unfold destroy. now rewrite (bind_throw _ _ _ _ _ H).
Qed.

End DestroyFacts.

Lemma destroy_keeps_the_row_witness :
  (exists (o' : SQLObject) (w' : World Scripted.DB),
      destroy [] Scripted.DB Scripted.driver_query
        (fst (widgets_read [Scripted.header 0]),
         Scripted.start [widgets_columns; Scripted.header 0])
      = (Ok (VNum 1), (o', w'))
      /\ get_datum o' = VObj widget_row)
  /\ (exists (o' : SQLObject) (w' : World Scripted.DB),
        destroy [] Scripted.DB Scripted.driver_query
          (fst (widgets_read [Scripted.header 0]),
           Scripted.start [widgets_columns; Scripted.failure "gone"])
        = (Ok (VNum 0), (o', w'))
        /\ get_datum o' = VObj widget_row).
Proof.
  split.
  - refine (match proj1 (destroy_keeps_the_row [] Scripted.DB
                           Scripted.driver_query
                           (fst (widgets_read [Scripted.header 0]))
                           (Scripted.start
                              [widgets_columns; Scripted.header 0]))
                    _ _ _ _ eq_refl eq_refl
            with conj Hone _ => _ end).
    + lazy; reflexivity.
    + eexists. eexists. split; [apply Hone; lazy; reflexivity |].
      reflexivity.
  - refine (match proj1 (destroy_keeps_the_row [] Scripted.DB
                           Scripted.driver_query
                           (fst (widgets_read [Scripted.header 0]))
                           (Scripted.start
                              [widgets_columns; Scripted.failure "gone"]))
                    _ _ _ _ eq_refl eq_refl
            with conj _ (conj Hzero _) => _ end).
    + lazy; reflexivity.
    + eexists. eexists. split; [eapply Hzero; lazy; reflexivity |].
      reflexivity.
Defined.

Lemma escapeSQL_agrees_without_nul_witness :
  escapeSQL (VNum 30) = VNum 30
  /\ escapeSQL (VStr "O'Neil") = VStr (escapeValue (VStr "O'Neil")).
Proof.
  split.
  - apply (proj2 escapeSQL_agrees_without_nul). intros s. discriminate.
  - apply (proj1 escapeSQL_agrees_without_nul). reflexivity.
Defined.
